(** * alb_script/deploy.py: template planner and stack reconciler

    A shallow embedding of [find_instances], [plan], [apply] and [delete]
    of [src/alb_script/deploy.py].

    The script talks to three AWS services through boto3 (EC2,
    CloudFormation, ELBv2), writes one file and prints progress lines.
    These effects are modelled by a small monad [M]: a computation reads
    and updates the state of the outside world, may raise a Python
    exception, and emits the list of effects it performed, in order.  The
    answers of the remote services are given by a record of oracles, so
    every theorem holds for every behaviour of the services. *)

From Stdlib Require Import String Ascii ZArith List Bool Lia.
Import ListNotations.
Local Open Scope string_scope.
Local Open Scope Z_scope.

Set Warnings "-register-all".

(** ** Python values *)

(** The values the script builds for the CloudFormation template: nested
    dicts and lists of strings and integers.  A dict keeps its keys in
    insertion order, as Python's does. *)
Inductive pyval : Type :=
| PNone
| PInt (z : Z)
| PStr (s : string)
| PList (l : list pyval)
| PDict (d : list (string * pyval)).

Definition dict : Type := list (string * pyval).

(** [d[k] = v]: an existing key keeps its position and gets the new value,
    a new key is added at the end. *)
Fixpoint dict_set (d : dict) (k : string) (v : pyval) : dict :=
  match d with
  | [] => [(k, v)]
  | (k', v') :: d' =>
      if String.eqb k' k then (k, v) :: d' else (k', v') :: dict_set d' k v
  end.

Fixpoint dict_get (d : dict) (k : string) : option pyval :=
  match d with
  | [] => None
  | (k', v') :: d' => if String.eqb k' k then Some v' else dict_get d' k
  end.

(** [v[k]] on a value that should be a dict. *)
Definition item (v : pyval) (k : string) : option pyval :=
  match v with
  | PDict d => dict_get d k
  | _ => None
  end.

(** [v[k1][k2]...]. *)
Fixpoint path (v : pyval) (ks : list string) : option pyval :=
  match ks with
  | [] => Some v
  | k :: ks' =>
      match item v k with
      | Some v' => path v' ks'
      | None => None
      end
  end.

(** ** Exceptions, requests and responses *)

Inductive exn : Type :=
| AlreadyExistsException
| ClientError (msg : string)
| WaiterError (msg : string)
| IndexError
| OSError (msg : string).

Inductive outcome (A : Type) : Type :=
| Ok (a : A)
| Raised (e : exn).
Arguments Ok {A} a.
Arguments Raised {A} e.

(** [boto3.client(service, region)]. *)
Record client : Type := boto3_client {
  service_name : string;
  region_name : string
}.

Record Filter : Type := { Name : string; Values : list string }.
Record Ec2Instance : Type := { InstanceId : string }.
Record Reservation : Type := { Instances : list Ec2Instance }.
Record StackParameter : Type := { ParameterKey : string; ParameterValue : string }.
Record Stack : Type := { StackId : string }.
Record StackResourceDetail : Type := { PhysicalResourceId : string }.
Record LoadBalancer : Type := { DNSName : string }.

(** A [WaiterConfig] dict: [{}] or [{"Delay": 2}]. *)
Definition WaiterConfig : Type := list (string * Z).

(** [client.get_waiter(name)]. *)
Record waiter_t : Type := get_waiter {
  waiter_client : client;
  waiter_name : string
}.

(** The effects a run performs, with the arguments the script passes. *)
Inductive event : Type :=
| Print (line : string)
| WriteFile (file_name content : string)
| DescribeInstances (c : client) (Filters : list Filter)
| CreateStack (c : client) (StackName TemplateBody : string)
    (Parameters : list StackParameter)
| UpdateStack (c : client) (StackName TemplateBody : string)
    (Parameters : list StackParameter)
| DescribeStacks (c : client) (StackName : string)
| Wait (w : waiter_t) (StackName : string) (cfg : WaiterConfig)
| DescribeStackResource (c : client) (StackName LogicalResourceId : string)
| DescribeLoadBalancers (c : client) (LoadBalancerArns : list string)
| DeleteStack (c : client) (StackName : string).

(** ** The outside world *)

(** What the remote services and the file system answer, as functions of
    the state [W] of the world. *)
Record services (W : Type) : Type := {
  ec2_describe_instances :
    client -> list Filter -> W -> outcome (list Reservation) * W;
  cfn_create_stack :
    client -> string -> string -> list StackParameter -> W -> outcome unit * W;
  cfn_update_stack :
    client -> string -> string -> list StackParameter -> W -> outcome unit * W;
  cfn_describe_stacks : client -> string -> W -> outcome (list Stack) * W;
  cfn_wait : waiter_t -> string -> WaiterConfig -> W -> outcome unit * W;
  cfn_describe_stack_resource :
    client -> string -> string -> W -> outcome StackResourceDetail * W;
  elbv2_describe_load_balancers :
    client -> list string -> W -> outcome (list LoadBalancer) * W;
  cfn_delete_stack : client -> string -> W -> outcome unit * W;
  fs_write : string -> string -> W -> outcome unit * W
}.
Arguments ec2_describe_instances {W}.
Arguments cfn_create_stack {W}.
Arguments cfn_update_stack {W}.
Arguments cfn_describe_stacks {W}.
Arguments cfn_wait {W}.
Arguments cfn_describe_stack_resource {W}.
Arguments elbv2_describe_load_balancers {W}.
Arguments cfn_delete_stack {W}.
Arguments fs_write {W}.

(** ** The monad of the script *)

Definition M (W A : Type) : Type := W -> outcome A * W * list event.

Definition ret {W A} (a : A) : M W A := fun w => (Ok a, w, []).

Definition raise {W A} (e : exn) : M W A := fun w => (Raised e, w, []).

Definition bind {W A B} (m : M W A) (f : A -> M W B) : M W B :=
  fun w =>
    match m w with
    | (Ok a, w1, l1) =>
        match f a w1 with
        | (r, w2, l2) => (r, w2, (l1 ++ l2)%list)
        end
    | (Raised e, w1, l1) => (Raised e, w1, l1)
    end.

(** [try: body except <handled>: ...]: [handler e] is [None] for an
    exception the [except] clause does not name. *)
Definition try_except {W A} (body : M W A) (handler : exn -> option (M W A))
  : M W A :=
  fun w =>
    match body w with
    | (Ok a, w1, l1) => (Ok a, w1, l1)
    | (Raised e, w1, l1) =>
        match handler e with
        | Some h =>
            match h w1 with
            | (r, w2, l2) => (r, w2, (l1 ++ l2)%list)
            end
        | None => (Raised e, w1, l1)
        end
    end.

(** One effect: it is recorded, and the world answers. *)
Definition perform {W A} (ev : event) (answer : W -> outcome A * W) : M W A :=
  fun w =>
    match answer w with
    | (r, w1) => (r, w1, [ev])
    end.

Definition print {W} (line : string) : M W unit :=
  perform (Print line) (fun w => (Ok tt, w)).

(** [l[0]]. *)
Definition index0 {W A} (l : list A) : M W A :=
  match l with
  | x :: _ => ret x
  | [] => raise IndexError
  end.

Declare Scope py_scope.
Delimit Scope py_scope with py.
Notation "x <- m ;; k" := (bind m (fun x => k))
  (at level 61, m at next level, right associativity) : py_scope.
Notation "m ;; k" := (bind m (fun _ => k))
  (at level 61, right associativity) : py_scope.
Notation "' p <- m ;; k" := (bind m (fun x => match x with p => k end))
  (at level 61, p pattern, m at next level, right associativity) : py_scope.
Local Open Scope py_scope.

(** The result, the final world and the effects of a run. *)
Definition result {W A} (r : outcome A * W * list event) : outcome A :=
  fst (fst r).
Definition world {W A} (r : outcome A * W * list event) : W := snd (fst r).
Definition effects {W A} (r : outcome A * W * list event) : list event :=
  snd r.

Section Script.

Variable W : Type.
Variable aws : services W.

(** Python's [str()] of a value that an f-string interpolates, and
    [json.dumps(., indent=2)]: library functions, left abstract. *)
Variable str : pyval -> string.
Variable json_dumps : pyval -> string.

Definition describe_instances (c : client) (filters : list Filter)
  : M W (list Reservation) :=
  perform (DescribeInstances c filters) (ec2_describe_instances aws c filters).

Definition create_stack (c : client) (name body : string)
  (ps : list StackParameter) : M W unit :=
  perform (CreateStack c name body ps) (cfn_create_stack aws c name body ps).

Definition update_stack (c : client) (name body : string)
  (ps : list StackParameter) : M W unit :=
  perform (UpdateStack c name body ps) (cfn_update_stack aws c name body ps).

Definition describe_stacks (c : client) (name : string) : M W (list Stack) :=
  perform (DescribeStacks c name) (cfn_describe_stacks aws c name).

Definition wait (wt : waiter_t) (name : string) (cfg : WaiterConfig)
  : M W unit :=
  perform (Wait wt name cfg) (cfn_wait aws wt name cfg).

Definition describe_stack_resource (c : client) (name logical : string)
  : M W StackResourceDetail :=
  perform (DescribeStackResource c name logical)
          (cfn_describe_stack_resource aws c name logical).

Definition describe_load_balancers (c : client) (arns : list string)
  : M W (list LoadBalancer) :=
  perform (DescribeLoadBalancers c arns)
          (elbv2_describe_load_balancers aws c arns).

Definition delete_stack (c : client) (name : string) : M W unit :=
  perform (DeleteStack c name) (cfn_delete_stack aws c name).

(** [with open(file_name, "w") as file: file.write(content)]. *)
Definition write_file (file_name content : string) : M W unit :=
  perform (WriteFile file_name content) (fs_write aws file_name content).

(** *** find_instances *)

(** The two nested [for] loops that append every [InstanceId]. *)
Definition collect_instance_ids (reservations : list Reservation)
  : list string :=
  fold_left
    (fun instance_ids reservation =>
       fold_left
         (fun instance_ids instance =>
            (instance_ids ++ [InstanceId instance])%list)
         (Instances reservation) instance_ids)
    reservations [].

Definition find_instances (region : string) (clusters : list string)
  : M W (list string) :=
  print ("Searching for all instances with these cluster ids: "
           ++ str (PList (map PStr clusters)) ++ " ...");;
  let client := boto3_client "ec2" region in
  let tags :=
    [ {| Name := "tag:anyscale-session-id"; Values := clusters |};
      {| Name := "instance-state-name"; Values := ["running"] |} ] in
  response <- describe_instances client tags;;
  let instance_ids := collect_instance_ids response in
  print ("Found " ++ str (PInt (Z.of_nat (length instance_ids)))
           ++ " instances with these cluster ids: "
           ++ str (PList (map PStr clusters)) ++ "." ++ String "010" "");;
  ret instance_ids.

(** *** plan *)

(** One entry of [versions]: the tuple [(version, weight, clusters)]. *)
Record VersionSpec : Type := {
  version : string;
  weight : Z;
  clusters : list string
}.

(** First loop of [plan]: one forwarding entry per version. *)
Definition forward_entries (stack_name : string)
  (versions : list VersionSpec) : list pyval :=
  fold_left
    (fun target_groups v =>
       (target_groups ++
          [PDict [("TargetGroupArn",
                    PDict [("Ref", PStr ("TG" ++ version v ++ stack_name))]);
                  ("Weight", PInt (weight v))]])%list)
    versions [].

(** The inner loop of the second loop: one target per instance. *)
Definition make_targets (instances : list string) : list pyval :=
  fold_left
    (fun targets instance =>
       (targets ++ [PDict [("Id", PStr instance); ("Port", PInt 8000)]])%list)
    instances [].

(** Second loop of [plan]: one target group per version, stored in
    [resources] under the key [TG<version><stack_name>]. *)
Fixpoint plan_target_groups (region stack_name : string)
  (versions : list VersionSpec) (resources : dict) : M W dict :=
  match versions with
  | [] => ret resources
  | v :: versions' =>
      instances <- find_instances region (clusters v);;
      let targets := make_targets instances in
      let resources :=
        dict_set resources ("TG" ++ version v ++ stack_name)
          (PDict
             [("Type", PStr "AWS::ElasticLoadBalancingV2::TargetGroup");
              ("Properties",
                PDict
                  [("HealthCheckIntervalSeconds", PInt 5);
                   ("HealthCheckTimeoutSeconds", PInt 4);
                   ("HealthyThresholdCount", PInt 2);
                   ("HealthCheckPath", PStr "/healthcheck");
                   ("Name",
                     PStr ("tg-" ++ version v ++ "-" ++ stack_name));
                   ("Port", PInt 8000);
                   ("Protocol", PStr "HTTP");
                   ("ProtocolVersion", PStr "HTTP1");
                   ("VpcId", PDict [("Ref", PStr "VPCID")]);
                   ("Targets", PList targets)])]) in
      plan_target_groups region stack_name versions' resources
  end.

Definition plan (region stack_name : string) (versions : list VersionSpec)
  : M W string :=
  print ("Generating the cloudformation template ..." ++ String "010" "");;
  let params :=
    PDict
      [("SecurityGroups",
         PDict [("Description", PStr "List of security groups");
                ("Type", PStr "CommaDelimitedList")]);
       ("Subnets",
         PDict [("Description",
                  PStr "List of subnets that your instances reside in");
                ("Type", PStr "CommaDelimitedList")]);
       ("VPCID",
         PDict [("Description", PStr "VPC ID of all of the instances");
                ("Type", PStr "String")])] in
  let resources : dict := [] in
  let resources :=
    dict_set resources ("ALB" ++ stack_name)
      (PDict
         [("Type", PStr "AWS::ElasticLoadBalancingV2::LoadBalancer");
          ("Properties",
            PDict
              [("IpAddressType", PStr "ipv4");
               ("Name", PStr ("ALB" ++ stack_name));
               ("SecurityGroups", PDict [("Ref", PStr "SecurityGroups")]);
               ("Subnets", PDict [("Ref", PStr "Subnets")]);
               ("Type", PStr "application")])]) in
  let target_groups := forward_entries stack_name versions in
  let resources :=
    dict_set resources ("ALBListener" ++ stack_name)
      (PDict
         [("Type", PStr "AWS::ElasticLoadBalancingV2::Listener");
          ("Properties",
            PDict
              [("LoadBalancerArn",
                 PDict [("Ref", PStr ("ALB" ++ stack_name))]);
               ("Port", PInt 80);
               ("Protocol", PStr "HTTP");
               ("DefaultActions",
                 PList
                   [PDict
                      [("Type", PStr "forward");
                       ("ForwardConfig",
                         PDict
                           [("TargetGroups", PList target_groups)])]])])]) in
  resources <- plan_target_groups region stack_name versions resources;;
  let cf_template :=
    PDict [("Parameters", params); ("Resources", PDict resources)] in
  let cf_template_json := json_dumps cf_template in
  write_file "cf_template.json" cf_template_json;;
  print ("Generated the cloudformation template. A copy has been saved in cf_template.json."
           ++ String "010" "");;
  ret cf_template_json.

(** *** apply *)

(** The function has no [return] statement: its value is [None]. *)
Definition apply (region stack_name cf_template : string)
  (parameters : list StackParameter) : M W pyval :=
  print ("Applying the cloudformation template ..." ++ String "010" "");;
  let client := boto3_client "cloudformation" region in
  '(waiter, waiter_config) <-
    try_except
      (create_stack client stack_name cf_template parameters;;
       let waiter := get_waiter client "stack_create_complete" in
       let waiter_config : WaiterConfig := [] in
       ret (waiter, waiter_config))
      (fun e =>
         match e with
         | AlreadyExistsException =>
             Some
               (update_stack client stack_name cf_template parameters;;
                let waiter := get_waiter client "stack_update_complete" in
                let waiter_config : WaiterConfig := [("Delay", 2)] in
                ret (waiter, waiter_config))
         | _ => None
         end);;
  stack_description <- describe_stacks client stack_name;;
  stack0 <- index0 stack_description;;
  let stack_id := StackId stack0 in
  let stack_url :=
    "https://" ++ region
      ++ ".console.aws.amazon.com/cloudformation/home?region=" ++ region
      ++ "#stacks/stackinfo?stackId=" ++ stack_id in
  print ("View your stack at " ++ stack_url ++ "." ++ String "010" "");;
  wait waiter stack_name waiter_config;;
  print ("Finished deploying the cloudformation template."
           ++ String "010" "");;
  alb_description <-
    describe_stack_resource client stack_name ("ALB" ++ stack_name);;
  let client := boto3_client "elbv2" "us-west-2" in
  response <-
    describe_load_balancers client [PhysicalResourceId alb_description];;
  lb0 <- index0 response;;
  let ALB_dns_name := DNSName lb0 in
  print ("The DNS name of your ALB is " ++ ALB_dns_name ++ ".");;
  ret PNone.

(** *** delete *)

Definition delete (region stack_name : string) : M W pyval :=
  print ("Deleting cloudformation stack " ++ stack_name ++ " ...");;
  let client := boto3_client "cloudformation" region in
  delete_stack client stack_name;;
  let waiter := get_waiter client "stack_delete_complete" in
  wait waiter stack_name [("Delay", 1)];;
  print ("Deleted cloudformation stack " ++ stack_name ++ ".");;
  ret PNone.

End Script.

Arguments find_instances {W}.
Arguments plan_target_groups {W}.
Arguments plan {W}.
Arguments apply {W}.
Arguments delete {W}.

(** ** Reading a template *)

(** The logical name of the target group of a version. *)
Definition tg_key (stack_name label : string) : string :=
  "TG" ++ label ++ stack_name.

Definition alb_key (stack_name : string) : string := "ALB" ++ stack_name.

Definition listener_key (stack_name : string) : string :=
  "ALBListener" ++ stack_name.

(** Is this resource of the template a target group? *)
Definition is_target_group (kv : string * pyval) : bool :=
  match item (snd kv) "Type" with
  | Some (PStr ty) =>
      String.eqb ty "AWS::ElasticLoadBalancingV2::TargetGroup"
  | _ => false
  end.

(** The entries of the forwarding rule of a listener:
    [Properties.DefaultActions[0].ForwardConfig.TargetGroups]. *)
Definition forwarding_entries (listener : pyval) : option (list pyval) :=
  match path listener ["Properties"; "DefaultActions"] with
  | Some (PList (action :: _)) =>
      match path action ["ForwardConfig"; "TargetGroups"] with
      | Some (PList entries) => Some entries
      | _ => None
      end
  | _ => None
  end.

(** One entry of the forwarding rule, read as (referenced resource,
    weight). *)
Definition pool_weight (entry : pyval) : option (string * Z) :=
  match path entry ["TargetGroupArn"; "Ref"], item entry "Weight" with
  | Some (PStr ref), Some (PInt w) => Some (ref, w)
  | _, _ => None
  end.

(** The targets of a target group, read as (instance id, port). *)
Definition target_of (t : pyval) : option (string * Z) :=
  match item t "Id", item t "Port" with
  | Some (PStr i), Some (PInt p) => Some (i, p)
  | _, _ => None
  end.

Definition pool_targets (pool : pyval) : option (list pyval) :=
  match path pool ["Properties"; "Targets"] with
  | Some (PList targets) => Some targets
  | _ => None
  end.

(** The health check of a target group: path, interval, timeout and
    healthy threshold. *)
Definition health_check (pool : pyval)
  : option pyval * option pyval * option pyval * option pyval :=
  (path pool ["Properties"; "HealthCheckPath"],
   path pool ["Properties"; "HealthCheckIntervalSeconds"],
   path pool ["Properties"; "HealthCheckTimeoutSeconds"],
   path pool ["Properties"; "HealthyThresholdCount"]).

Definition is_discovery (ev : event) : bool :=
  match ev with
  | DescribeInstances _ _ => true
  | _ => false
  end.

(** The request [find_instances region clusters] sends. *)
Definition discovery_request (region : string) (clusters : list string)
  : event :=
  DescribeInstances (boto3_client "ec2" region)
    [ {| Name := "tag:anyscale-session-id"; Values := clusters |};
      {| Name := "instance-state-name"; Values := ["running"] |} ].

(** The discovery calls of [plan], one after the other: the instance ids
    found for each version. *)
Fixpoint discover_all {W} (aws : services W) (str : pyval -> string)
  (region : string) (versions : list VersionSpec) : M W (list (list string)) :=
  match versions with
  | [] => ret []
  | v :: versions' =>
      instances <- find_instances aws str region (clusters v);;
      rest <- discover_all aws str region versions';;
      ret (instances :: rest)
  end.

(** ** The template as a function of the discovery results *)

(** The values [plan] stores, named so that the lemmas can speak of them;
    [plan_run] below proves that they are what [plan] computes. *)
Definition target (instance : string) : pyval :=
  PDict [("Id", PStr instance); ("Port", PInt 8000)].

Definition target_group (stack_name : string) (v : VersionSpec)
  (instances : list string) : pyval :=
  PDict
    [("Type", PStr "AWS::ElasticLoadBalancingV2::TargetGroup");
     ("Properties",
       PDict
         [("HealthCheckIntervalSeconds", PInt 5);
          ("HealthCheckTimeoutSeconds", PInt 4);
          ("HealthyThresholdCount", PInt 2);
          ("HealthCheckPath", PStr "/healthcheck");
          ("Name", PStr ("tg-" ++ version v ++ "-" ++ stack_name));
          ("Port", PInt 8000);
          ("Protocol", PStr "HTTP");
          ("ProtocolVersion", PStr "HTTP1");
          ("VpcId", PDict [("Ref", PStr "VPCID")]);
          ("Targets", PList (make_targets instances))])].

Fixpoint add_target_groups (stack_name : string)
  (versions : list VersionSpec) (found : list (list string))
  (resources : dict) : dict :=
  match versions, found with
  | v :: versions', instances :: found' =>
      add_target_groups stack_name versions' found'
        (dict_set resources (tg_key stack_name (version v))
           (target_group stack_name v instances))
  | _, _ => resources
  end.

Definition load_balancer (stack_name : string) : pyval :=
  PDict
    [("Type", PStr "AWS::ElasticLoadBalancingV2::LoadBalancer");
     ("Properties",
       PDict
         [("IpAddressType", PStr "ipv4");
          ("Name", PStr ("ALB" ++ stack_name));
          ("SecurityGroups", PDict [("Ref", PStr "SecurityGroups")]);
          ("Subnets", PDict [("Ref", PStr "Subnets")]);
          ("Type", PStr "application")])].

Definition listener (stack_name : string) (versions : list VersionSpec)
  : pyval :=
  PDict
    [("Type", PStr "AWS::ElasticLoadBalancingV2::Listener");
     ("Properties",
       PDict
         [("LoadBalancerArn", PDict [("Ref", PStr ("ALB" ++ stack_name))]);
          ("Port", PInt 80);
          ("Protocol", PStr "HTTP");
          ("DefaultActions",
            PList
              [PDict
                 [("Type", PStr "forward");
                  ("ForwardConfig",
                    PDict
                      [("TargetGroups",
                         PList (forward_entries stack_name versions))])]])])].

Definition template_parameters : pyval :=
  PDict
    [("SecurityGroups",
       PDict [("Description", PStr "List of security groups");
              ("Type", PStr "CommaDelimitedList")]);
     ("Subnets",
       PDict [("Description",
                PStr "List of subnets that your instances reside in");
              ("Type", PStr "CommaDelimitedList")]);
     ("VPCID",
       PDict [("Description", PStr "VPC ID of all of the instances");
              ("Type", PStr "String")])].

Definition base_resources (stack_name : string)
  (versions : list VersionSpec) : dict :=
  dict_set (dict_set [] (alb_key stack_name) (load_balancer stack_name))
    (listener_key stack_name) (listener stack_name versions).

Definition cf_template (stack_name : string) (versions : list VersionSpec)
  (found : list (list string)) : pyval :=
  PDict
    [("Parameters", template_parameters);
     ("Resources",
       PDict
         (add_target_groups stack_name versions found
            (base_resources stack_name versions)))].

(** ** A small world to run the script in *)

Module Demo.

(** The state of the world: the names of the stacks that exist. *)
Definition world : Type := list string.

Definition running (cluster : string) : list Ec2Instance :=
  if String.eqb cluster "c1"
  then [ {| InstanceId := "i-aaa" |}; {| InstanceId := "i-bbb" |} ]
  else if String.eqb cluster "c2"
       then [ {| InstanceId := "i-ccc" |} ]
       else [].

Definition tagged (filters : list Filter) : list string :=
  flat_map
    (fun f =>
       if String.eqb (Name f) "tag:anyscale-session-id"
       then Values f else [])
    filters.

Definition has_stack (name : string) (w : world) : bool :=
  existsb (String.eqb name) w.

Definition aws : services world := {|
  ec2_describe_instances := fun _ filters w =>
    (Ok (map (fun c => {| Instances := running c |}) (tagged filters)), w);
  cfn_create_stack := fun _ name _ _ w =>
    if has_stack name w
    then (Raised AlreadyExistsException, w)
    else (Ok tt, name :: w);
  cfn_update_stack := fun _ name _ _ w =>
    if has_stack name w
    then (Ok tt, w)
    else (Raised (ClientError "ValidationError"), w);
  cfn_describe_stacks := fun _ name w =>
    if has_stack name w
    then (Ok [ {| StackId := "arn:aws:cloudformation:stack/" ++ name |} ], w)
    else (Raised (ClientError "ValidationError"), w);
  cfn_wait := fun _ _ _ w => (Ok tt, w);
  cfn_describe_stack_resource := fun _ _ logical w =>
    (Ok {| PhysicalResourceId :=
             "arn:aws:elasticloadbalancing:loadbalancer/app/" ++ logical |},
     w);
  elbv2_describe_load_balancers := fun _ arns w =>
    (Ok (map (fun _ => {| DNSName := "prod-alb.elb.amazonaws.com" |}) arns),
     w);
  cfn_delete_stack := fun _ name w =>
    (Ok tt, filter (fun n => negb (String.eqb n name)) w);
  fs_write := fun _ _ w => (Ok tt, w)
|}.

(** A stand-in for [str] and [json.dumps]; no theorem depends on what
    they print. *)
Definition shown (_ : pyval) : string := "<value>".

Definition v1 : VersionSpec :=
  {| version := "v1"; weight := 90; clusters := ["c1"] |}.
Definition v2 : VersionSpec :=
  {| version := "v2"; weight := 10; clusters := ["c2"] |}.
(** A version whose cluster has no running instance. *)
Definition v3 : VersionSpec :=
  {| version := "v3"; weight := 0; clusters := ["c3"] |}.
(** A second version labelled [v1]. *)
Definition v1' : VersionSpec :=
  {| version := "v1"; weight := 10; clusters := ["c2"] |}.

Definition parameters : list StackParameter :=
  [ {| ParameterKey := "SecurityGroups"; ParameterValue := "sg-1" |};
    {| ParameterKey := "Subnets"; ParameterValue := "subnet-1,subnet-2" |};
    {| ParameterKey := "VPCID"; ParameterValue := "vpc-1" |} ].

End Demo.

(** ** Reading a run of the reconciler *)

(** The client an effect goes through, if it is a remote call. *)
Definition client_of (ev : event) : option client :=
  match ev with
  | Print _ => None
  | WriteFile _ _ => None
  | DescribeInstances c _ => Some c
  | CreateStack c _ _ _ => Some c
  | UpdateStack c _ _ _ => Some c
  | DescribeStacks c _ => Some c
  | Wait wt _ _ => Some (waiter_client wt)
  | DescribeStackResource c _ _ => Some c
  | DescribeLoadBalancers c _ => Some c
  | DeleteStack c _ => Some c
  end.

(** The waiter configurations a run waited with, in order. *)
Definition wait_configs (l : list event) : list WaiterConfig :=
  flat_map
    (fun ev => match ev with Wait _ _ cfg => [cfg] | _ => [] end) l.

(** The seconds a botocore waiter sleeps between two polls: the entry
    [Delay] of the [WaiterConfig] it is called with, or else the delay of
    its waiter model ([config.get('Delay', self.config.delay)] in
    [botocore.waiter.Waiter.wait]). *)
Definition waiter_delay (model_delay : Z) (cfg : WaiterConfig) : Z :=
  match find (fun kv => String.eqb (fst kv) "Delay") cfg with
  | Some kv => snd kv
  | None => model_delay
  end.

(** The delay of botocore's waiter models [StackCreateComplete],
    [StackUpdateComplete] and [StackDeleteComplete] (CloudFormation,
    [waiters-2.json]): 30 seconds, at most 120 attempts. *)
Definition stack_waiter_model_delay : Z := 30.

(** Only the creation of a stack answers "already exists". *)
Definition only_create_signals_exists {W} (aws : services W) : Prop :=
  (forall c n b p w,
      fst (cfn_update_stack aws c n b p w) <> Raised AlreadyExistsException)
  /\ (forall c n w,
         fst (cfn_describe_stacks aws c n w) <> Raised AlreadyExistsException)
  /\ (forall wt n cfg w,
         fst (cfn_wait aws wt n cfg w) <> Raised AlreadyExistsException)
  /\ (forall c n r w,
         fst (cfn_describe_stack_resource aws c n r w)
         <> Raised AlreadyExistsException)
  /\ (forall c arns w,
         fst (elbv2_describe_load_balancers aws c arns w)
         <> Raised AlreadyExistsException).

(** ** The order of the remote calls *)

Inductive call_kind : Type :=
| KDiscover
| KCreate
| KUpdate
| KDescribeStacks
| KWait
| KDescribeResource
| KDescribeLoadBalancers
| KDelete.

Definition kind_of (ev : event) : option call_kind :=
  match ev with
  | Print _ => None
  | WriteFile _ _ => None
  | DescribeInstances _ _ => Some KDiscover
  | CreateStack _ _ _ _ => Some KCreate
  | UpdateStack _ _ _ _ => Some KUpdate
  | DescribeStacks _ _ => Some KDescribeStacks
  | Wait _ _ _ => Some KWait
  | DescribeStackResource _ _ _ => Some KDescribeResource
  | DescribeLoadBalancers _ _ => Some KDescribeLoadBalancers
  | DeleteStack _ _ => Some KDelete
  end.

(** The remote calls of a run, in order, by kind. *)
Definition remote_calls (l : list event) : list call_kind :=
  flat_map
    (fun ev => match kind_of ev with Some k => [k] | None => [] end) l.

(** ** The two verbs *)

(** The end of the script (lines 243 to 247), which runs once the
    arguments are checked and the configuration is parsed:
    [if verb == "apply": template = plan(...); apply(...)]
    [elif verb == "delete": delete(...)]. *)
Definition run_verb {W} (aws : services W)
  (str json_dumps : pyval -> string) (verb region stack_name : string)
  (versions : list VersionSpec) (parameters : list StackParameter)
  : M W pyval :=
  if String.eqb verb "apply" then
    template <- plan aws str json_dumps region stack_name versions;;
    apply aws region stack_name template parameters
  else if String.eqb verb "delete" then
    delete aws region stack_name
  else ret PNone.

(** ** parse_input *)

(** The exceptions of the lookups [parse_input] makes in the loaded
    configuration. *)
Inductive config_error : Type :=
| KeyError (key : string)
| TypeError
| AttributeError.

(** [v[k]] with a string [k]: only a dict can be subscripted so. *)
Definition subscript (v : pyval) (k : string) : config_error + pyval :=
  match v with
  | PDict d =>
      match dict_get d k with
      | Some x => inr x
      | None => inl (KeyError k)
      end
  | _ => inl TypeError
  end.

(** [for x in v]: the items of a list, the keys of a dict, the characters
    of a string; [None] and integers are not iterable. *)
Definition py_iter (v : pyval) : config_error + list pyval :=
  match v with
  | PList l => inr l
  | PDict d => inr (map (fun kv => PStr (fst kv)) d)
  | PStr s => inr (map (fun c => PStr (String c "")) (list_ascii_of_string s))
  | _ => inl TypeError
  end.

(** [v.values()]: only a dict has the method. *)
Definition py_values (v : pyval) : config_error + list pyval :=
  match v with
  | PDict d => inr (map snd d)
  | _ => inl AttributeError
  end.

(** The loop [for version in inputs["versions"]:
    versions.append(version.values())]. *)
Fixpoint collect_versions (items : list pyval)
  (versions : list (list pyval)) : config_error + list (list pyval) :=
  match items with
  | [] => inr versions
  | version :: items' =>
      match py_values version with
      | inl e => inl e
      | inr values => collect_versions items' (versions ++ [values])%list
      end
  end.

Definition and_then {A B} (r : config_error + A)
  (k : A -> config_error + B) : config_error + B :=
  match r with
  | inl e => inl e
  | inr a => k a
  end.

(** [parse_input] from the value [inputs] that [yaml.safe_load] returned
    (of the kinds of [pyval]: [None], integers, strings, lists, dicts with
    string keys): the lines printed, and the tuple
    [(region, stack_name, versions, parameters)] or the exception. *)
Definition parse_input (inputs : pyval)
  : list event
    * (config_error + (pyval * pyval * list (list pyval) * list pyval)) :=
  let parsed :=
    and_then (subscript inputs "stack_name") (fun stack_name =>
    and_then (subscript inputs "region") (fun region =>
    and_then (subscript inputs "versions") (fun listed =>
    and_then (py_iter listed) (fun items =>
    and_then (collect_versions items []) (fun versions =>
    and_then (subscript inputs "security_groups") (fun security_groups =>
    and_then (subscript inputs "subnets") (fun subnets =>
    and_then (subscript inputs "vpc_id") (fun vpc_id =>
    let parameters :=
      [PDict [("ParameterKey", PStr "SecurityGroups");
              ("ParameterValue", security_groups)];
       PDict [("ParameterKey", PStr "Subnets");
              ("ParameterValue", subnets)];
       PDict [("ParameterKey", PStr "VPCID");
              ("ParameterValue", vpc_id)]] in
    inr (region, stack_name, versions, parameters))))))))) in
  match parsed with
  | inl e => ([Print "Parsing the config yaml ..."], inl e)
  | inr r =>
      ([Print "Parsing the config yaml ...";
        Print ("Finished parsing the config yaml." ++ String "010" "")],
       inr r)
  end.

(** The keys [parse_input] reads, in the order it reads them. *)
Definition required_keys : list string :=
  ["stack_name"; "region"; "versions"; "security_groups"; "subnets";
   "vpc_id"].

(** ** A world with one fault, and a sample configuration *)

Module Faulty.

(** The services of [Demo], with one fault: [ec2] refuses the look-up of
    the cluster [c2], [write] refuses the file, [create], [update] and
    [wait] refuse their call, [stacks] describes no stack. *)
Definition aws (fault : string) : services Demo.world := {|
  ec2_describe_instances := fun c filters w =>
    if String.eqb fault "ec2"
       && existsb (String.eqb "c2") (Demo.tagged filters)
    then (Raised (ClientError "UnauthorizedOperation"), w)
    else ec2_describe_instances Demo.aws c filters w;
  cfn_create_stack := fun c n b p w =>
    if String.eqb fault "create"
    then (Raised (ClientError "ValidationError"), w)
    else cfn_create_stack Demo.aws c n b p w;
  cfn_update_stack := fun c n b p w =>
    if String.eqb fault "update"
    then (Raised (ClientError "No updates are to be performed."), w)
    else cfn_update_stack Demo.aws c n b p w;
  cfn_describe_stacks := fun c n w =>
    if String.eqb fault "stacks"
    then (Ok [], w)
    else cfn_describe_stacks Demo.aws c n w;
  cfn_wait := fun wt n cfg w =>
    if String.eqb fault "wait"
    then (Raised (WaiterError "Waiter encountered a terminal failure state"),
          w)
    else cfn_wait Demo.aws wt n cfg w;
  cfn_describe_stack_resource := cfn_describe_stack_resource Demo.aws;
  elbv2_describe_load_balancers := elbv2_describe_load_balancers Demo.aws;
  cfn_delete_stack := cfn_delete_stack Demo.aws;
  fs_write := fun f content w =>
    if String.eqb fault "write"
    then (Raised (OSError "Permission denied"), w)
    else fs_write Demo.aws f content w
|}.

End Faulty.

Module Sample.

Definition entry (label : string) (share : Z) (cluster : string) : dict :=
  [("version", PStr label); ("weight", PInt share);
   ("cluster_ids", PList [PStr cluster])].

(** The same version under other key names. *)
Definition renamed (label : string) (share : Z) (cluster : string) : dict :=
  [("name", PStr label); ("percent", PInt share);
   ("clusters", PList [PStr cluster])].

Definition config : dict :=
  [("stack_name", PStr "prod");
   ("region", PStr "us-west-2");
   ("versions", PList [PDict (entry "v1" 90 "c1"); PDict (entry "v2" 10 "c2")]);
   ("security_groups", PStr "sg-1");
   ("subnets", PStr "subnet-1,subnet-2");
   ("vpc_id", PStr "vpc-1")].

(** The configuration without its subnets. *)
Definition no_subnets : dict :=
  [("stack_name", PStr "prod");
   ("region", PStr "us-west-2");
   ("versions", PList [PDict (entry "v1" 90 "c1")]);
   ("security_groups", PStr "sg-1");
   ("vpc_id", PStr "vpc-1")].

End Sample.

(** ** Strings and dicts *)

Lemma length_append (a b : string) :
  String.length (a ++ b) = (String.length a + String.length b)%nat.
Proof.
  induction a as [|c a IH]; simpl; [reflexivity | now rewrite IH].
Qed.

Lemma append_inj_l (a b s : string) : a ++ s = b ++ s -> a = b.
Proof.
  revert b; induction a as [|c a IH]; intros [|d b] H; simpl in H.
  - reflexivity.
  - apply (f_equal String.length) in H; simpl in H.
    rewrite length_append in H; lia.
  - apply (f_equal String.length) in H; simpl in H.
    rewrite length_append in H; lia.
  - injection H as -> H. f_equal. now apply IH.
Qed.

Lemma tg_key_inj (stack_name a b : string) :
  tg_key stack_name a = tg_key stack_name b -> a = b.
Proof.
  unfold tg_key; simpl; intros H; injection H as H.
  now apply append_inj_l in H.
Qed.

Lemma tg_key_not_alb (stack_name label : string) :
  tg_key stack_name label <> alb_key stack_name.
Proof. unfold tg_key, alb_key, listener_key; simpl; discriminate. Qed.

Lemma tg_key_not_listener (stack_name label : string) :
  tg_key stack_name label <> listener_key stack_name.
Proof. unfold tg_key, alb_key, listener_key; simpl; discriminate. Qed.

Lemma dict_get_set_same (d : dict) (k : string) (v : pyval) :
  dict_get (dict_set d k v) k = Some v.
Proof.
  induction d as [|[k' v'] d IH]; simpl.
  - now rewrite String.eqb_refl.
  - destruct (String.eqb k' k) eqn:E; simpl.
    + now rewrite String.eqb_refl.
    + now rewrite E.
Qed.

Lemma dict_get_set_other (d : dict) (k k0 : string) (v : pyval) :
  k <> k0 -> dict_get (dict_set d k v) k0 = dict_get d k0.
Proof.
  intros Hne; induction d as [|[k' v'] d IH]; simpl.
  - apply String.eqb_neq in Hne. now rewrite Hne.
  - destruct (String.eqb k' k) eqn:E; simpl.
    + apply String.eqb_eq in E; subst k'.
      apply String.eqb_neq in Hne. now rewrite Hne.
    + destruct (String.eqb k' k0); [reflexivity | exact IH].
Qed.

Lemma dict_set_fresh (d : dict) (k : string) (v : pyval) :
  ~ In k (map fst d) -> dict_set d k v = (d ++ [(k, v)])%list.
Proof.
  induction d as [|[k' v'] d IH]; simpl; intros Hnin; [reflexivity|].
  destruct (String.eqb k' k) eqn:E.
  - apply String.eqb_eq in E. tauto.
  - f_equal. apply IH. tauto.
Qed.

Lemma dict_set_keys (d : dict) (k : string) (v : pyval) (k0 : string) :
  In k0 (map fst (dict_set d k v)) <-> k0 = k \/ In k0 (map fst d).
Proof.
  induction d as [|[k' v'] d IH]; simpl.
  - intuition congruence.
  - destruct (String.eqb k' k) eqn:E; simpl.
    + apply String.eqb_eq in E; subst k'. intuition congruence.
    + rewrite IH. intuition congruence.
Qed.

Lemma dict_set_NoDup (d : dict) (k : string) (v : pyval) :
  NoDup (map fst d) -> NoDup (map fst (dict_set d k v)).
Proof.
  induction d as [|[k' v'] d IH]; simpl; intros Hnd.
  - constructor; [intros [] | constructor].
  - inversion Hnd as [|? ? Hnin Hnd']; subst.
    destruct (String.eqb k' k) eqn:E; simpl.
    + apply String.eqb_eq in E; subst k'. now constructor.
    + constructor; [|now apply IH].
      rewrite dict_set_keys. apply String.eqb_neq in E.
      intros [->|Hin]; tauto.
Qed.

Lemma dict_set_Forall (P : string * pyval -> Prop) (d : dict) (k : string)
  (v : pyval) :
  Forall P d -> P (k, v) -> Forall P (dict_set d k v).
Proof.
  intros Hd Hv; induction Hd as [|[k' v'] d Hx Hd IH]; simpl.
  - now constructor.
  - destruct (String.eqb k' k); now constructor.
Qed.

(** A loop that appends one element per item builds [map]. *)
Lemma fold_left_append_map {A B} (f : A -> B) (l : list A) (acc : list B) :
  fold_left (fun acc x => (acc ++ [f x])%list) l acc = (acc ++ map f l)%list.
Proof.
  revert acc; induction l as [|x l IH]; intros acc; simpl.
  - now rewrite app_nil_r.
  - now rewrite IH, <- app_assoc.
Qed.

(** ** Runs of [find_instances] and [plan] *)

Section Runs.

Variable W : Type.
Variable aws : services W.
Variable str : pyval -> string.
Variable json_dumps : pyval -> string.

Lemma collect_instance_ids_flat (reservations : list Reservation) :
  collect_instance_ids reservations
  = flat_map (fun r => map InstanceId (Instances r)) reservations.
Proof.
  unfold collect_instance_ids.
  enough (H : forall acc,
             fold_left
               (fun ids r =>
                  fold_left
                    (fun ids i => (ids ++ [InstanceId i])%list)
                    (Instances r) ids)
               reservations acc
             = (acc ++ flat_map (fun r => map InstanceId (Instances r))
                         reservations)%list)
    by apply (H []).
  induction reservations as [|r rs IH]; intros acc; simpl.
  - now rewrite app_nil_r.
  - now rewrite IH, fold_left_append_map, <- app_assoc.
Qed.

(** [find_instances] sends exactly one request, whatever the answer. *)
Lemma find_instances_requests (region : string) (cl : list string) (w : W) :
  filter is_discovery (effects (find_instances aws str region cl w))
  = [discovery_request region cl].
Proof.
  unfold find_instances, describe_instances, print, perform, bind, effects.
  simpl.
  destruct (ec2_describe_instances aws _ _ w) as [[resp|e] w1];
    reflexivity.
Qed.

(** [find_instances] fails only when the EC2 call does. *)
Lemma find_instances_result (region : string) (cl : list string) (w : W) :
  result (find_instances aws str region cl w)
  = match fst (ec2_describe_instances aws (boto3_client "ec2" region)
                 [ {| Name := "tag:anyscale-session-id"; Values := cl |};
                   {| Name := "instance-state-name";
                      Values := ["running"] |} ] w) with
    | Ok response => Ok (collect_instance_ids response)
    | Raised e => Raised e
    end.
Proof.
  unfold find_instances, describe_instances, print, perform, bind, result.
  simpl.
  destruct (ec2_describe_instances aws _ _ w) as [[resp|e] w1];
    reflexivity.
Qed.

Lemma discover_all_length (region : string) (versions : list VersionSpec) :
  forall w found w1 l,
    discover_all aws str region versions w = (Ok found, w1, l) ->
    length found = length versions.
Proof.
  induction versions as [|v vs IH]; intros w found w1 l; simpl.
  - unfold ret. intros H; injection H as <- _ _. reflexivity.
  - unfold bind.
    destruct (find_instances aws str region (clusters v) w)
      as [[[a|e] w0] l0]; [|discriminate].
    destruct (discover_all aws str region vs w0)
      as [[[rest|e] w2] l2] eqn:E; simpl; [|discriminate].
    intros H; injection H as <- _ _. simpl. f_equal. eapply IH; eauto.
Qed.

(** One discovery request per version, in the order of the input. *)
Lemma discover_all_requests (region : string)
  (versions : list VersionSpec) :
  forall w found w1 l,
    discover_all aws str region versions w = (Ok found, w1, l) ->
    filter is_discovery l
    = map (fun v => discovery_request region (clusters v)) versions.
Proof.
  induction versions as [|v vs IH]; intros w found w1 l; simpl.
  - unfold ret. intros H; injection H as _ _ <-. reflexivity.
  - unfold bind.
    pose proof (find_instances_requests region (clusters v) w) as Hreq.
    destruct (find_instances aws str region (clusters v) w)
      as [[[a|e] w0] l0]; [|discriminate].
    destruct (discover_all aws str region vs w0)
      as [[[rest|e] w2] l2] eqn:E; simpl; [|discriminate].
    intros H; injection H as _ _ <-.
    unfold effects in Hreq; simpl in Hreq.
    rewrite app_nil_r, filter_app, Hreq. simpl. f_equal.
    eapply IH; eauto.
Qed.

(** The second loop of [plan] is the discovery calls followed by the
    pure construction of the target groups. *)
Lemma plan_target_groups_run (region stack_name : string)
  (versions : list VersionSpec) :
  forall resources w,
    plan_target_groups aws str region stack_name versions resources w
    = match discover_all aws str region versions w with
      | (Ok found, w1, l) =>
          (Ok (add_target_groups stack_name versions found resources),
           w1, l)
      | (Raised e, w1, l) => (Raised e, w1, l)
      end.
Proof.
  induction versions as [|v vs IH]; intros resources w; simpl.
  - reflexivity.
  - unfold bind.
    destruct (find_instances aws str region (clusters v) w)
      as [[[a|e] w0] l0]; [|reflexivity].
    rewrite IH.
    destruct (discover_all aws str region vs w0)
      as [[[rest|e] w2] l2]; simpl; [|reflexivity].
    now rewrite app_nil_r.
Qed.

(** The run of [plan] when every discovery call succeeds. *)
Lemma plan_run (region stack_name : string) (versions : list VersionSpec)
  (w : W) (found : list (list string)) (w1 : W) (l : list event) :
  discover_all aws str region versions w = (Ok found, w1, l) ->
  let body := json_dumps (cf_template stack_name versions found) in
  plan aws str json_dumps region stack_name versions w
  = match fs_write aws "cf_template.json" body w1 with
    | (Ok _, w2) =>
        (Ok body, w2,
         Print ("Generating the cloudformation template ..."
                  ++ String "010" "")
           :: l ++
           [WriteFile "cf_template.json" body;
            Print ("Generated the cloudformation template. A copy has been saved in cf_template.json."
                     ++ String "010" "")])%list
    | (Raised e, w2) =>
        (Raised e, w2,
         Print ("Generating the cloudformation template ..."
                  ++ String "010" "")
           :: l ++ [WriteFile "cf_template.json" body])%list
    end.
Proof.
  intros Hd body.
  unfold plan, bind at 1, print at 1, perform at 1. cbv zeta.
  unfold bind at 1. rewrite plan_target_groups_run.
  change (dict_set (dict_set [] ("ALB" ++ stack_name) _) _ _)
    with (base_resources stack_name versions).
  rewrite Hd.
  unfold bind, write_file, print, perform, ret.
  change (json_dumps (PDict _)) with body.
  destruct (fs_write aws "cf_template.json" body w1) as [[[]|e] w2];
    reflexivity.
Qed.

(** The run of [plan] when a discovery call fails. *)
Lemma plan_run_raised (region stack_name : string)
  (versions : list VersionSpec) (w : W) (e : exn) (w1 : W)
  (l : list event) :
  discover_all aws str region versions w = (Raised e, w1, l) ->
  plan aws str json_dumps region stack_name versions w
  = (Raised e, w1,
     Print ("Generating the cloudformation template ..."
              ++ String "010" "") :: l).
Proof.
  intros Hd.
  unfold plan, bind at 1, print at 1, perform at 1. cbv zeta.
  unfold bind at 1. rewrite plan_target_groups_run, Hd. reflexivity.
Qed.

End Runs.

(** ** The resources of the template *)

Section Resources.

Variable stack_name : string.

Lemma alb_key_not_listener : alb_key stack_name <> listener_key stack_name.
Proof.
  unfold alb_key, listener_key; simpl. intros H; injection H as H.
  apply (f_equal String.length) in H; simpl in H. lia.
Qed.

Lemma base_resources_eq (versions : list VersionSpec) :
  base_resources stack_name versions
  = [(alb_key stack_name, load_balancer stack_name);
     (listener_key stack_name, listener stack_name versions)].
Proof.
  pose proof alb_key_not_listener as Hne. apply String.eqb_neq in Hne.
  unfold base_resources. cbn [dict_set]. now rewrite Hne.
Qed.

Lemma make_targets_map (instances : list string) :
  make_targets instances = map target instances.
Proof. unfold make_targets. apply (fold_left_append_map target). Qed.

Lemma forward_entries_map (versions : list VersionSpec) :
  forward_entries stack_name versions
  = map (fun v =>
           PDict [("TargetGroupArn",
                    PDict [("Ref", PStr (tg_key stack_name (version v)))]);
                  ("Weight", PInt (weight v))])
        versions.
Proof.
  unfold forward_entries.
  apply (fold_left_append_map
           (fun v =>
              PDict [("TargetGroupArn",
                       PDict [("Ref",
                                PStr (tg_key stack_name (version v)))]);
                     ("Weight", PInt (weight v))])).
Qed.

(** A key that no later version uses keeps its value. *)
Lemma add_target_groups_other (k : string) (versions : list VersionSpec) :
  forall found resources,
    ~ In k (map (fun v => tg_key stack_name (version v)) versions) ->
    dict_get (add_target_groups stack_name versions found resources) k
    = dict_get resources k.
Proof.
  induction versions as [|v vs IH]; intros found resources Hk; simpl.
  - reflexivity.
  - destruct found as [|r found]; [reflexivity|].
    simpl in Hk. rewrite IH by tauto.
    apply dict_get_set_other. intros E; apply Hk; now left.
Qed.

(** The target group stored under a label is built from the last version
    that carries the label. *)
Lemma add_target_groups_lookup (before : list VersionSpec)
  (v : VersionSpec) (after : list VersionSpec) :
  forall fb r fa resources,
    length fb = length before ->
    ~ In (version v) (map version after) ->
    dict_get
      (add_target_groups stack_name (before ++ v :: after)
         (fb ++ r :: fa) resources)
      (tg_key stack_name (version v))
    = Some (target_group stack_name v r).
Proof.
  induction before as [|b before IH]; intros fb r fa resources Hlen Hlast.
  - destruct fb; [|discriminate]. simpl.
    rewrite add_target_groups_other; [apply dict_get_set_same|].
    rewrite in_map_iff. intros [v' [E Hin]].
    apply tg_key_inj in E. apply Hlast. rewrite <- E. now apply in_map.
  - destruct fb as [|r0 fb]; [discriminate|]. simpl.
    apply IH; [now injection Hlen | exact Hlast].
Qed.

Lemma add_target_groups_keys_NoDup (versions : list VersionSpec) :
  forall found resources,
    NoDup (map fst resources) ->
    NoDup (map fst (add_target_groups stack_name versions found resources)).
Proof.
  induction versions as [|v vs IH]; intros found resources Hnd; simpl.
  - exact Hnd.
  - destruct found as [|r found]; [exact Hnd|].
    apply IH. now apply dict_set_NoDup.
Qed.

Lemma add_target_groups_Forall (P : string * pyval -> Prop)
  (versions : list VersionSpec) :
  (forall v r, P (tg_key stack_name (version v),
                  target_group stack_name v r)) ->
  forall found resources,
    Forall P resources ->
    Forall P (add_target_groups stack_name versions found resources).
Proof.
  intros HP.
  induction versions as [|v vs IH]; intros found resources Hres; simpl.
  - exact Hres.
  - destruct found as [|r found]; [exact Hres|].
    apply IH. apply dict_set_Forall; [exact Hres | apply HP].
Qed.

(** With pairwise distinct labels every version adds a new key, so the
    resources grow by one target group per version, in order. *)
Lemma add_target_groups_fresh (versions : list VersionSpec) :
  forall found resources,
    NoDup (map version versions) ->
    (forall v, In v versions ->
               ~ In (tg_key stack_name (version v)) (map fst resources)) ->
    length found = length versions ->
    add_target_groups stack_name versions found resources
    = (resources ++
         map (fun vr => (tg_key stack_name (version (fst vr)),
                         target_group stack_name (fst vr) (snd vr)))
           (combine versions found))%list.
Proof.
  induction versions as [|v vs IH]; intros found resources Hnd Hfresh Hlen.
  - simpl. now rewrite app_nil_r.
  - destruct found as [|r found]; [discriminate|]. simpl.
    simpl in Hnd. inversion Hnd as [|? ? Hnin Hnd']; subst.
    rewrite dict_set_fresh by (apply Hfresh; now left).
    rewrite IH; [now rewrite <- app_assoc | exact Hnd' | | now injection Hlen].
    intros v' Hin. rewrite map_app, in_app_iff. simpl.
    intros [Hold|[E|[]]].
    + apply (Hfresh v'); [now right | exact Hold].
    + apply tg_key_inj in E. apply Hnin. rewrite E. now apply in_map.
Qed.

Lemma target_groups_of_version_list (versions : list VersionSpec) :
  forall found,
    length found = length versions ->
    map fst
      (filter is_target_group
         (map (fun vr => (tg_key stack_name (version (fst vr)),
                          target_group stack_name (fst vr) (snd vr)))
            (combine versions found)))
    = map (fun v => tg_key stack_name (version v)) versions.
Proof.
  induction versions as [|v vs IH]; intros [|r found] Hlen;
    try discriminate; [reflexivity|].
  simpl. f_equal. apply IH. now injection Hlen.
Qed.

Lemma resources_listener (versions : list VersionSpec)
  (found : list (list string)) :
  dict_get
    (add_target_groups stack_name versions found
       (base_resources stack_name versions))
    (listener_key stack_name)
  = Some (listener stack_name versions).
Proof.
  rewrite add_target_groups_other.
  - unfold base_resources. apply dict_get_set_same.
  - rewrite in_map_iff. intros [v [E _]].
    now apply tg_key_not_listener in E.
Qed.

End Resources.

(** ** The planner *)

Section Planner.

Variable W : Type.
Variable aws : services W.
Variable str : pyval -> string.
Variable json_dumps : pyval -> string.

(** When the discovery calls and the write of the template succeed,
    [plan] returns the serialized template. *)
Lemma plan_succeeds (region stack_name : string)
  (versions : list VersionSpec) (w : W) (found : list (list string))
  (w1 : W) (l : list event) :
  discover_all aws str region versions w = (Ok found, w1, l) ->
  (forall content,
      fst (fs_write aws "cf_template.json" content w1) = Ok tt) ->
  result (plan aws str json_dumps region stack_name versions w)
  = Ok (json_dumps (cf_template stack_name versions found))
  /\ filter is_discovery
       (effects (plan aws str json_dumps region stack_name versions w))
     = map (fun v => discovery_request region (clusters v)) versions.
Proof.
  intros Hd Hw.
  pose proof (plan_run W aws str json_dumps region stack_name versions
                w found w1 l Hd) as Hrun.
  cbv zeta in Hrun.
  specialize (Hw (json_dumps (cf_template stack_name versions found))).
  destruct (fs_write aws "cf_template.json" _ w1) as [[[]|e] w2];
    simpl in Hw; [|discriminate].
  rewrite Hrun. split; [reflexivity|].
  unfold effects; simpl. rewrite filter_app; simpl. rewrite app_nil_r.
  eapply discover_all_requests; eauto.
Qed.

Lemma target_of_targets (instances : list string) :
  map target_of (make_targets instances)
  = map (fun i => Some (i, 8000)) instances.
Proof.
  rewrite make_targets_map, map_map. apply map_ext. reflexivity.
Qed.

(** C1. For an input with pairwise distinct labels, [plan] produces
    exactly one target group per version, in the order of the input,
    named after the version and holding the instances found for it; the
    forwarding rule of the listener has one entry per version, in the
    same order, that refers to the version's target group and carries
    the declared weight unchanged. *)
Theorem plan_one_pool_per_version (region stack_name : string)
  (versions : list VersionSpec) (w : W) (found : list (list string))
  (w1 : W) (l : list event) :
  NoDup (map version versions) ->
  discover_all aws str region versions w = (Ok found, w1, l) ->
  (forall content,
      fst (fs_write aws "cf_template.json" content w1) = Ok tt) ->
  exists (t : pyval) (resources : dict) (lsn : pyval)
         (entries : list pyval),
    result (plan aws str json_dumps region stack_name versions w)
    = Ok (json_dumps t)
    /\ item t "Resources" = Some (PDict resources)
    /\ map fst (filter is_target_group resources)
       = map (fun v => tg_key stack_name (version v)) versions
    /\ (forall i v r,
           nth_error versions i = Some v ->
           nth_error found i = Some r ->
           exists pool targets,
             dict_get resources (tg_key stack_name (version v)) = Some pool
             /\ path pool ["Properties"; "Name"]
                = Some (PStr ("tg-" ++ version v ++ "-" ++ stack_name))
             /\ pool_targets pool = Some targets
             /\ map target_of targets = map (fun i => Some (i, 8000)) r)
    /\ dict_get resources (listener_key stack_name) = Some lsn
    /\ forwarding_entries lsn = Some entries
    /\ map pool_weight entries
       = map (fun v => Some (tg_key stack_name (version v), weight v))
           versions.
Proof.
  intros Hnd Hd Hw.
  pose proof (discover_all_length W aws str region versions w found w1 l Hd)
    as Hlen.
  destruct (plan_succeeds region stack_name versions w found w1 l Hd Hw)
    as [Hres _].
  exists (cf_template stack_name versions found),
    (add_target_groups stack_name versions found
       (base_resources stack_name versions)),
    (listener stack_name versions),
    (forward_entries stack_name versions).
  split; [exact Hres|].
  split; [reflexivity|].
  split.
  { rewrite base_resources_eq, add_target_groups_fresh; auto.
    - rewrite filter_app. cbn [filter is_target_group snd item dict_get].
      simpl String.eqb. cbn iota. simpl app.
      now apply target_groups_of_version_list.
    - intros v _ [E|[E|[]]]; symmetry in E.
      + now apply tg_key_not_alb in E.
      + now apply tg_key_not_listener in E. }
  split.
  { intros i v r Hv Hr.
    apply nth_error_split in Hv as (before & after & -> & Hb).
    apply nth_error_split in Hr as (fb & fa & -> & Hfb).
    exists (target_group stack_name v r), (make_targets r).
    split.
    - apply add_target_groups_lookup; [congruence|].
      rewrite map_app in Hnd. apply NoDup_remove_2 in Hnd.
      intros Hin; apply Hnd. apply in_or_app; now right.
    - split; [reflexivity|]. split; [reflexivity|].
      apply target_of_targets. }
  split; [apply resources_listener|].
  split; [reflexivity|].
  rewrite forward_entries_map, map_map. apply map_ext. reflexivity.
Qed.

(** Every label of the input has a target group in the template. *)
Lemma add_target_groups_defined (stack_name : string)
  (versions : list VersionSpec) :
  forall found resources k,
    length found = length versions ->
    In k (map (fun v => tg_key stack_name (version v)) versions) ->
    exists v r,
      dict_get (add_target_groups stack_name versions found resources) k
      = Some (target_group stack_name v r).
Proof.
  induction versions as [|v vs IH]; intros found resources k Hlen Hin.
  - destruct Hin.
  - destruct found as [|r found]; [discriminate|]. simpl.
    destruct (in_dec string_dec k
                (map (fun v => tg_key stack_name (version v)) vs))
      as [Hlater|Hlast].
    + apply IH; [now injection Hlen | exact Hlater].
    + rewrite add_target_groups_other by exact Hlast.
      destruct Hin as [<-|Hin]; [|contradiction].
      exists v, r. apply dict_get_set_same.
Qed.

(** C2, as the code has it.  [plan] does not check the labels: for
    every input, one with repeated labels included, it sends one
    discovery request per version, in order, and when these and the
    write of the template succeed it returns the template.  The
    resources have pairwise distinct keys, so a label that several
    versions carry gets a single target group: it holds the instances
    found for the last version with that label.  The forwarding rule
    still has one entry per version. *)
Theorem plan_keeps_last_of_repeated_label (region stack_name : string)
  (versions : list VersionSpec) (w : W) (found : list (list string))
  (w1 : W) (l : list event) :
  discover_all aws str region versions w = (Ok found, w1, l) ->
  (forall content,
      fst (fs_write aws "cf_template.json" content w1) = Ok tt) ->
  exists (t : pyval) (resources : dict) (lsn : pyval)
         (entries : list pyval),
    result (plan aws str json_dumps region stack_name versions w)
    = Ok (json_dumps t)
    /\ filter is_discovery
         (effects (plan aws str json_dumps region stack_name versions w))
       = map (fun v => discovery_request region (clusters v)) versions
    /\ item t "Resources" = Some (PDict resources)
    /\ NoDup (map fst resources)
    /\ (forall before v after fb r fa,
           versions = (before ++ v :: after)%list ->
           found = (fb ++ r :: fa)%list ->
           length fb = length before ->
           ~ In (version v) (map version after) ->
           exists pool targets,
             dict_get resources (tg_key stack_name (version v)) = Some pool
             /\ pool_targets pool = Some targets
             /\ map target_of targets = map (fun i => Some (i, 8000)) r)
    /\ dict_get resources (listener_key stack_name) = Some lsn
    /\ forwarding_entries lsn = Some entries
    /\ map pool_weight entries
       = map (fun v => Some (tg_key stack_name (version v), weight v))
           versions.
Proof.
  intros Hd Hw.
  destruct (plan_succeeds region stack_name versions w found w1 l Hd Hw)
    as [Hres Hreq].
  exists (cf_template stack_name versions found),
    (add_target_groups stack_name versions found
       (base_resources stack_name versions)),
    (listener stack_name versions),
    (forward_entries stack_name versions).
  split; [exact Hres|]. split; [exact Hreq|]. split; [reflexivity|].
  split.
  { apply add_target_groups_keys_NoDup. rewrite base_resources_eq. simpl.
    constructor; [|constructor; [intros [] | constructor]].
    intros [E|[]]. symmetry in E. now apply alb_key_not_listener in E. }
  split.
  { intros before v after fb r fa -> -> Hlen Hlast.
    exists (target_group stack_name v r), (make_targets r).
    split; [now apply add_target_groups_lookup|].
    split; [reflexivity | apply target_of_targets]. }
  split; [apply resources_listener|].
  split; [reflexivity|].
  rewrite forward_entries_map, map_map. apply map_ext. reflexivity.
Qed.


(** The constants of a target group. *)
Lemma target_group_constants (stack_name : string) (v : VersionSpec)
  (r : list string) :
  let pool := target_group stack_name v r in
  health_check pool
  = (Some (PStr "/healthcheck"), Some (PInt 5), Some (PInt 4),
     Some (PInt 2))
  /\ path pool ["Properties"; "Port"] = Some (PInt 8000)
  /\ exists targets,
      pool_targets pool = Some targets
      /\ Forall (fun t => item t "Port" = Some (PInt 8000)) targets.
Proof.
  cbv zeta. split; [reflexivity|]. split; [reflexivity|].
  exists (make_targets r). split; [reflexivity|].
  rewrite make_targets_map. apply Forall_forall.
  intros t Hin. apply in_map_iff in Hin as [i [<- _]]. reflexivity.
Qed.

(** C10. Whatever the input, the template [plan] produces has the
    listener on port 80 with protocol HTTP, and every target group of the
    template, one of which exists for every version, has health-check path
    "/healthcheck", interval 5, timeout 4 and healthy threshold 2, port
    8000, and port 8000 on each of its targets. *)
Theorem plan_fixed_constants (region stack_name : string)
  (versions : list VersionSpec) (w : W) (found : list (list string))
  (w1 : W) (l : list event) :
  discover_all aws str region versions w = (Ok found, w1, l) ->
  (forall content,
      fst (fs_write aws "cf_template.json" content w1) = Ok tt) ->
  exists (t : pyval) (resources : dict) (lsn : pyval),
    result (plan aws str json_dumps region stack_name versions w)
    = Ok (json_dumps t)
    /\ item t "Resources" = Some (PDict resources)
    /\ dict_get resources (listener_key stack_name) = Some lsn
    /\ path lsn ["Properties"; "Port"] = Some (PInt 80)
    /\ path lsn ["Properties"; "Protocol"] = Some (PStr "HTTP")
    /\ (forall v, In v versions ->
          exists pool,
            dict_get resources (tg_key stack_name (version v)) = Some pool
            /\ is_target_group (tg_key stack_name (version v), pool)
               = true)
    /\ (forall k pool,
           In (k, pool) resources ->
           is_target_group (k, pool) = true ->
           health_check pool
           = (Some (PStr "/healthcheck"), Some (PInt 5), Some (PInt 4),
              Some (PInt 2))
           /\ path pool ["Properties"; "Port"] = Some (PInt 8000)
           /\ exists targets,
               pool_targets pool = Some targets
               /\ Forall (fun t => item t "Port" = Some (PInt 8000))
                    targets).
Proof.
  intros Hd Hw.
  pose proof (discover_all_length W aws str region versions w found w1 l Hd)
    as Hlen.
  destruct (plan_succeeds region stack_name versions w found w1 l Hd Hw)
    as [Hres _].
  exists (cf_template stack_name versions found),
    (add_target_groups stack_name versions found
       (base_resources stack_name versions)),
    (listener stack_name versions).
  split; [exact Hres|]. split; [reflexivity|].
  split; [apply resources_listener|].
  split; [reflexivity|]. split; [reflexivity|].
  split.
  { intros v Hin.
    destruct (add_target_groups_defined stack_name versions found
                (base_resources stack_name versions)
                (tg_key stack_name (version v)) Hlen)
      as (v' & r & Hget).
    - apply in_map_iff. now exists v.
    - exists (target_group stack_name v' r). split; [exact Hget|].
      reflexivity. }
  intros k pool Hin.
  revert k pool Hin.
  assert (Hall :
           Forall
             (fun kv =>
                is_target_group kv = true ->
                health_check (snd kv)
                = (Some (PStr "/healthcheck"), Some (PInt 5),
                   Some (PInt 4), Some (PInt 2))
                /\ path (snd kv) ["Properties"; "Port"] = Some (PInt 8000)
                /\ exists targets,
                    pool_targets (snd kv) = Some targets
                    /\ Forall (fun t => item t "Port" = Some (PInt 8000))
                         targets)
             (add_target_groups stack_name versions found
                (base_resources stack_name versions))).
  { apply add_target_groups_Forall.
    - intros v r _. apply target_group_constants.
    - rewrite base_resources_eq.
      constructor; [intros H; discriminate H|].
      constructor; [intros H; discriminate H|]. constructor. }
  rewrite Forall_forall in Hall.
  intros k pool Hin Htg. exact (Hall (k, pool) Hin Htg).
Qed.

End Planner.

(** C7. Two calls of [plan] with the same stack name and the same versions
    return the same template whenever discovery finds the same instances
    in both: the template depends on the world only through the discovery
    results. *)
Theorem plan_deterministic (W W' : Type) (aws : services W)
  (aws' : services W') (str str' json_dumps : pyval -> string)
  (region stack_name : string) (versions : list VersionSpec)
  (w : W) (w' : W') (found : list (list string))
  (w1 : W) (w1' : W') (l l' : list event) :
  discover_all aws str region versions w = (Ok found, w1, l) ->
  discover_all aws' str' region versions w' = (Ok found, w1', l') ->
  (forall content,
      fst (fs_write aws "cf_template.json" content w1) = Ok tt) ->
  (forall content,
      fst (fs_write aws' "cf_template.json" content w1') = Ok tt) ->
  exists t : pyval,
    result (plan aws str json_dumps region stack_name versions w)
    = Ok (json_dumps t)
    /\ result (plan aws' str' json_dumps region stack_name versions w')
       = Ok (json_dumps t)
    /\ In (WriteFile "cf_template.json" (json_dumps t))
         (effects (plan aws str json_dumps region stack_name versions w))
    /\ In (WriteFile "cf_template.json" (json_dumps t))
         (effects (plan aws' str' json_dumps region stack_name versions w')).
Proof.
  intros Hd Hd' Hw Hw'.
  exists (cf_template stack_name versions found).
  pose proof (plan_run W aws str json_dumps region stack_name versions
                w found w1 l Hd) as Hrun.
  pose proof (plan_run W' aws' str' json_dumps region stack_name versions
                w' found w1' l' Hd') as Hrun'.
  cbv zeta in Hrun, Hrun'.
  specialize (Hw (json_dumps (cf_template stack_name versions found))).
  specialize (Hw' (json_dumps (cf_template stack_name versions found))).
  destruct (fs_write aws "cf_template.json" _ w1) as [[[]|e] w2];
    simpl in Hw; [|discriminate].
  destruct (fs_write aws' "cf_template.json" _ w1') as [[[]|e] w2'];
    simpl in Hw'; [|discriminate].
  rewrite Hrun, Hrun'. unfold result, effects; simpl.
  repeat split; right; apply in_or_app; right; now left.
Qed.


Lemma plan_one_pool_per_version_witness :
  exists t resources,
    result (plan Demo.aws Demo.shown Demo.shown "us-west-2" "prod"
              [Demo.v1; Demo.v2] [])
    = Ok (Demo.shown t)
    /\ item t "Resources" = Some (PDict resources)
    /\ map fst (filter is_target_group resources) = ["TGv1prod"; "TGv2prod"].
Proof.
  destruct
    (plan_one_pool_per_version Demo.world Demo.aws Demo.shown Demo.shown
       "us-west-2" "prod" [Demo.v1; Demo.v2] []
       [["i-aaa"; "i-bbb"]; ["i-ccc"]] []
       (effects (discover_all Demo.aws Demo.shown "us-west-2"
                   [Demo.v1; Demo.v2] [])))
    as (t & resources & lsn & entries & H1 & H2 & H3 & _).
  - repeat constructor; simpl; intuition discriminate.
  - reflexivity.
  - reflexivity.
  - exists t, resources. auto.
Defined.

(** ** The reconciler *)

(** Unfolds a run down to the answers of the services. *)
Ltac unfold_run :=
  unfold apply, delete, try_except, bind, create_stack, update_stack,
    describe_stacks, wait, describe_stack_resource, describe_load_balancers,
    delete_stack, print, perform, index0, ret, raise, result, effects, world.

(** Splits a run on each answer it depends on, the first call first. *)
Ltac split_on t :=
  let E := fresh "E" in
  destruct t as [[?|?] ?] eqn:E; cbv beta iota.

Ltac split_run :=
  repeat
    match goal with
    | |- context [cfn_create_stack ?a ?c ?n ?b ?p ?w] =>
        split_on (cfn_create_stack a c n b p w)
    | |- context [cfn_update_stack ?a ?c ?n ?b ?p ?w] =>
        split_on (cfn_update_stack a c n b p w)
    | |- context [cfn_describe_stacks ?a ?c ?n ?w] =>
        split_on (cfn_describe_stacks a c n w)
    | |- context [cfn_wait ?a ?wt ?n ?cfg ?w] =>
        split_on (cfn_wait a wt n cfg w)
    | |- context [cfn_describe_stack_resource ?a ?c ?n ?r ?w] =>
        split_on (cfn_describe_stack_resource a c n r w)
    | |- context [elbv2_describe_load_balancers ?a ?c ?arns ?w] =>
        split_on (elbv2_describe_load_balancers a c arns w)
    | |- context [cfn_delete_stack ?a ?c ?n ?w] =>
        split_on (cfn_delete_stack a c n w)
    | |- context [match ?x with _ => _ end] =>
        is_var x; destruct x; cbv beta iota
    end.

Section Reconciler.

Variable W : Type.
Variable aws : services W.

(** C5. [apply] first submits the creation of the stack.  When the
    control plane answers "already exists", the next call is the update
    of the same stack with the same template and parameters; with any
    other answer no update is made.  As only the creation can answer
    "already exists", [apply] never ends with that error. *)
Theorem apply_create_then_update (region stack_name cf_template : string)
  (parameters : list StackParameter) (w : W) :
  let c := boto3_client "cloudformation" region in
  let run := apply aws region stack_name cf_template parameters w in
  (exists line rest,
      effects run
      = Print line :: CreateStack c stack_name cf_template parameters
          :: rest)
  /\ (fst (cfn_create_stack aws c stack_name cf_template parameters w)
      = Raised AlreadyExistsException ->
      exists line rest,
        effects run
        = Print line :: CreateStack c stack_name cf_template parameters
            :: UpdateStack c stack_name cf_template parameters :: rest)
  /\ (fst (cfn_create_stack aws c stack_name cf_template parameters w)
      <> Raised AlreadyExistsException ->
      forall c' n b p, ~ In (UpdateStack c' n b p) (effects run))
  /\ (only_create_signals_exists aws ->
      result run <> Raised AlreadyExistsException).
Proof.
  cbv zeta. unfold only_create_signals_exists. unfold_run.
  split_run.
  all: cbn [fst snd app].
  all: split; [do 2 eexists; reflexivity|].
  all: split;
    [intros Hexists; try discriminate Hexists; do 2 eexists; reflexivity|].
  all: split;
    [intros Hne c' n b p Hin; try (now elim Hne); cbn [In] in Hin;
     repeat (destruct Hin as [Hin|Hin]; try discriminate Hin);
     exact Hin|].
  all: intros (Hu & Hd & Hw & Hr & Hl) Hraised; try discriminate Hraised.
  all: injection Hraised as ->.
  all: repeat
         match goal with
         | E : _ = (Raised AlreadyExistsException, _) |- _ =>
             apply (f_equal fst) in E; cbn [fst] in E;
             first [ now apply Hu in E | now apply Hd in E
                   | now apply Hw in E | now apply Hr in E
                   | now apply Hl in E | clear E ]
         end.
Qed.

(** C3, as the code has it.  A run of [apply] waits at most once, and
    in one of two ways only.  On the create path (the creation is
    accepted and the stack described) it does wait, on
    [stack_create_complete] with an empty configuration, which leaves the
    waiter its own delay.  On the update path (the creation answers
    "already exists", the update is accepted and the stack described) it
    does wait, on [stack_update_complete] with a delay fixed at 2 seconds.
    The update path therefore waits longer between polls than the create
    path exactly for a waiter whose own delay is under 2 seconds; with the
    30 seconds of botocore's waiter it waits less, not more. *)
Theorem apply_wait_configuration (region stack_name cf_template : string)
  (parameters : list StackParameter) (w : W) :
  let c := boto3_client "cloudformation" region in
  let run := apply aws region stack_name cf_template parameters w in
  (wait_configs (effects run) = []
   \/ wait_configs (effects run) = [[]]
   \/ wait_configs (effects run) = [[("Delay", 2)]])
  /\ (forall wt n cfg,
         In (Wait wt n cfg) (effects run) ->
         n = stack_name
         /\ ((fst (cfn_create_stack aws c stack_name cf_template
                     parameters w)
              = Ok tt
              /\ wt = get_waiter c "stack_create_complete"
              /\ cfg = [])
             \/ (fst (cfn_create_stack aws c stack_name cf_template
                        parameters w)
                 = Raised AlreadyExistsException
                 /\ wt = get_waiter c "stack_update_complete"
                 /\ cfg = [("Delay", 2)])))
  /\ (forall w1 stack stacks w2,
         cfn_create_stack aws c stack_name cf_template parameters w
         = (Ok tt, w1) ->
         cfn_describe_stacks aws c stack_name w1
         = (Ok (stack :: stacks), w2) ->
         In (Wait (get_waiter c "stack_create_complete") stack_name [])
            (effects run)
         /\ wait_configs (effects run) = [[]])
  /\ (forall w0 w1 stack stacks w2,
         cfn_create_stack aws c stack_name cf_template parameters w
         = (Raised AlreadyExistsException, w0) ->
         cfn_update_stack aws c stack_name cf_template parameters w0
         = (Ok tt, w1) ->
         cfn_describe_stacks aws c stack_name w1
         = (Ok (stack :: stacks), w2) ->
         In (Wait (get_waiter c "stack_update_complete") stack_name
               [("Delay", 2)])
            (effects run)
         /\ wait_configs (effects run) = [[("Delay", 2)]])
  /\ (forall d, waiter_delay d [] = d)
  /\ (forall d, waiter_delay d [("Delay", 2)] = 2)
  /\ (forall d,
         waiter_delay d [] < waiter_delay d [("Delay", 2)] <-> d < 2)
  /\ waiter_delay stack_waiter_model_delay [("Delay", 2)]
     < waiter_delay stack_waiter_model_delay [].
Proof.
  cbv zeta.
  split.
  { unfold_run. split_run.
    all: cbn [fst snd app wait_configs flat_map].
    all: first [ left; reflexivity
               | right; left; reflexivity
               | right; right; reflexivity ]. }
  split.
  { unfold_run. split_run.
    all: cbn [fst snd app].
    all: intros wt n cfg Hin; cbn [In] in Hin.
    all: repeat (destruct Hin as [Hin|Hin]; try discriminate Hin).
    all: try contradiction.
    all: injection Hin as <- <- <-.
    all: repeat match goal with a : unit |- _ => destruct a end.
    all: split; [reflexivity|]; auto. }
  split.
  { intros w1 stack stacks w2 Hc Hd. unfold_run.
    rewrite Hc; cbv beta iota. rewrite Hd; cbv beta iota.
    split_run.
    all: cbn [fst snd app wait_configs flat_map In].
    all: split; [do 6 (try (left; reflexivity); right) | reflexivity]. }
  split.
  { intros w0 w1 stack stacks w2 Hc Hu Hd. unfold_run.
    rewrite Hc; cbv beta iota. rewrite Hu; cbv beta iota.
    rewrite Hd; cbv beta iota.
    split_run.
    all: cbn [fst snd app wait_configs flat_map In].
    all: split; [do 6 (try (left; reflexivity); right) | reflexivity]. }
  split; [reflexivity|]. split; [reflexivity|].
  split; [intros d; vm_compute; tauto | reflexivity].
Qed.

(** C4, as the code has it.  A successful [apply] has value [None].
    Its last effects are: the wait, which reported convergence; the
    lookup of the load balancer [ALB<stack_name>] among the resources of
    the stack; the lookup of the load balancer with the physical
    identifier just obtained; and the printing of the DNS name of the
    first load balancer of the answer. *)
Theorem apply_prints_dns_name (region stack_name cf_template : string)
  (parameters : list StackParameter) (w : W) (v : pyval) :
  let c := boto3_client "cloudformation" region in
  let elb := boto3_client "elbv2" "us-west-2" in
  let run := apply aws region stack_name cf_template parameters w in
  result run = Ok v ->
  v = PNone
  /\ exists before wt cfg detail lb,
      effects run
      = (before ++
           [Wait wt stack_name cfg;
            Print ("Finished deploying the cloudformation template."
                     ++ String "010" "");
            DescribeStackResource c stack_name ("ALB" ++ stack_name);
            DescribeLoadBalancers elb [PhysicalResourceId detail];
            Print ("The DNS name of your ALB is " ++ DNSName lb ++ ".")])%list
      /\ (exists w0, fst (cfn_wait aws wt stack_name cfg w0) = Ok tt)
      /\ (exists w0,
             fst (cfn_describe_stack_resource aws c stack_name
                    ("ALB" ++ stack_name) w0)
             = Ok detail)
      /\ (exists w0 others,
             fst (elbv2_describe_load_balancers aws elb
                    [PhysicalResourceId detail] w0)
             = Ok (lb :: others)).
Proof.
  cbv zeta. unfold_run. split_run.
  all: cbn [fst snd app].
  all: intros Hok; try discriminate Hok.
  all: injection Hok as <-.
  all: split; [reflexivity|].
  all: repeat match goal with a : unit |- _ => destruct a end.
  all: first
         [ eexists [_; _; _; _]; do 4 eexists; split; [reflexivity|]
         | eexists [_; _; _; _; _]; do 4 eexists; split; [reflexivity|] ].
  all: repeat split.
  all: try (eexists; match goal with
                     | E : _ = _ |- _ => rewrite E; reflexivity
                     end).
  all: eexists; eexists;
    match goal with E : _ = _ |- _ => rewrite E; reflexivity end.
Qed.

(** C9. The lookup of the load balancer always goes through the ELBv2
    client of region "us-west-2", whatever [region] is; a successful
    [apply] makes this lookup; and every other remote call of [apply]
    goes through the CloudFormation client of [region]. *)
Theorem apply_dns_lookup_region (region stack_name cf_template : string)
  (parameters : list StackParameter) (w : W) :
  let run := apply aws region stack_name cf_template parameters w in
  (forall c arns,
      In (DescribeLoadBalancers c arns) (effects run) ->
      c = boto3_client "elbv2" "us-west-2")
  /\ (forall v,
         result run = Ok v ->
         exists arns,
           In (DescribeLoadBalancers (boto3_client "elbv2" "us-west-2")
                 arns)
              (effects run))
  /\ (forall ev c,
         In ev (effects run) ->
         client_of ev = Some c ->
         c = boto3_client "cloudformation" region
         \/ exists arns, ev = DescribeLoadBalancers c arns).
Proof.
  cbv zeta. unfold_run. split_run.
  all: cbn [fst snd app].
  all: split;
    [intros c arns Hin; cbn [In] in Hin;
     repeat (destruct Hin as [Hin|Hin]; try discriminate Hin);
     try contradiction; now injection Hin as <- _|].
  all: split;
    [intros v Hok; try discriminate Hok; eexists; cbn [In];
     do 20 (try (left; reflexivity); right)|].
  all: intros ev c Hin Hc; cbn [In] in Hin.
  all: repeat (destruct Hin as [<-|Hin];
               [cbn [client_of waiter_client] in Hc;
                try discriminate Hc; injection Hc as <-;
                first [ left; reflexivity | right; eexists; reflexivity ]|]).
  all: contradiction.
Qed.

(** C8. [delete] first submits the deletion of the stack.  An error of
    the control plane on that call ends [delete] with the same error, and
    no wait is made.  Otherwise [delete] waits for
    [stack_delete_complete] with the delay fixed at 1 second, and ends
    as the wait does: with [None], or with the error of the wait. *)
Theorem delete_waits_and_propagates (region stack_name : string) (w : W) :
  let c := boto3_client "cloudformation" region in
  let wt := get_waiter c "stack_delete_complete" in
  let run := delete aws region stack_name w in
  (exists line rest,
      effects run = Print line :: DeleteStack c stack_name :: rest)
  /\ (forall e w1,
         cfn_delete_stack aws c stack_name w = (Raised e, w1) ->
         result run = Raised e
         /\ world run = w1
         /\ effects run
            = [Print ("Deleting cloudformation stack " ++ stack_name
                        ++ " ...");
               DeleteStack c stack_name])
  /\ (forall w1,
         cfn_delete_stack aws c stack_name w = (Ok tt, w1) ->
         (exists line rest,
             effects run
             = Print line :: DeleteStack c stack_name
                 :: Wait wt stack_name [("Delay", 1)] :: rest)
         /\ result run
            = match fst (cfn_wait aws wt stack_name [("Delay", 1)] w1) with
              | Ok _ => Ok PNone
              | Raised e => Raised e
              end)
  /\ (forall d, waiter_delay d [("Delay", 1)] = 1).
Proof.
  cbv zeta. unfold_run.
  destruct (cfn_delete_stack aws _ stack_name w) as [[[]|e] w1] eqn:Ed;
    cbv beta iota.
  - destruct (cfn_wait aws _ _ _ w1) as [[[]|e] w2] eqn:Ew;
      cbn [fst snd app].
    all: split; [do 2 eexists; reflexivity|].
    all: split; [intros e' w' H; discriminate H|].
    all: split; [|reflexivity].
    all: intros w' H; injection H as <-.
    all: split; [do 2 eexists; reflexivity | now rewrite Ew].
  - cbn [fst snd app].
    split; [do 2 eexists; reflexivity|].
    split; [intros e' w2 H; injection H as <- <-; now repeat split|].
    split; [intros w2 H; discriminate H | reflexivity].
Qed.

End Reconciler.

(** ** The script in the small world *)

(** C2 fails on the code: with two versions labelled [v1], [plan] raises
    nothing, returns the template, and has made both discovery calls. *)
Lemma plan_accepts_repeated_label :
  ~ NoDup (map version [Demo.v1; Demo.v1'])
  /\ result
       (plan Demo.aws Demo.shown Demo.shown "us-west-2" "prod"
          [Demo.v1; Demo.v1'] [])
     = Ok (Demo.shown
             (cf_template "prod" [Demo.v1; Demo.v1']
                [["i-aaa"; "i-bbb"]; ["i-ccc"]]))
  /\ filter is_discovery
       (effects
          (plan Demo.aws Demo.shown Demo.shown "us-west-2" "prod"
             [Demo.v1; Demo.v1'] []))
     = [discovery_request "us-west-2" ["c1"];
        discovery_request "us-west-2" ["c2"]].
Proof.
  split; [|split; reflexivity].
  intros H. inversion H as [|x l Hnin _]. apply Hnin. now left.
Qed.

Lemma plan_keeps_last_of_repeated_label_witness :
  exists t resources pool,
    result
      (plan Demo.aws Demo.shown Demo.shown "us-west-2" "prod"
         [Demo.v1; Demo.v1'] [])
    = Ok (Demo.shown t)
    /\ item t "Resources" = Some (PDict resources)
    /\ map fst resources = ["ALBprod"; "ALBListenerprod"; "TGv1prod"]
    /\ dict_get resources "TGv1prod" = Some pool
    /\ pool_targets pool
       = Some [PDict [("Id", PStr "i-ccc"); ("Port", PInt 8000)]].
Proof.
  destruct
    (plan_keeps_last_of_repeated_label Demo.world Demo.aws Demo.shown
       Demo.shown "us-west-2" "prod" [Demo.v1; Demo.v1'] []
       [["i-aaa"; "i-bbb"]; ["i-ccc"]] []
       (effects (discover_all Demo.aws Demo.shown "us-west-2"
                   [Demo.v1; Demo.v1'] [])))
    as (t & resources & lsn & entries & H1 & _).
  - reflexivity.
  - reflexivity.
  - exists (cf_template "prod" [Demo.v1; Demo.v1']
              [["i-aaa"; "i-bbb"]; ["i-ccc"]]).
    eexists. eexists. repeat split.
Defined.



Lemma plan_deterministic_witness :
  exists t,
    result
      (plan Demo.aws Demo.shown Demo.shown "us-west-2" "prod"
         [Demo.v1; Demo.v2] [])
    = Ok (Demo.shown t)
    /\ result
         (plan Demo.aws Demo.shown Demo.shown "us-west-2" "prod"
            [Demo.v1; Demo.v2] ["prod"])
       = Ok (Demo.shown t).
Proof.
  destruct
    (plan_deterministic Demo.world Demo.world Demo.aws Demo.aws Demo.shown
       Demo.shown Demo.shown "us-west-2" "prod" [Demo.v1; Demo.v2]
       [] ["prod"] [["i-aaa"; "i-bbb"]; ["i-ccc"]] [] ["prod"]
       (effects (discover_all Demo.aws Demo.shown "us-west-2"
                   [Demo.v1; Demo.v2] []))
       (effects (discover_all Demo.aws Demo.shown "us-west-2"
                   [Demo.v1; Demo.v2] ["prod"])))
    as (t & H1 & H2 & _).
  - reflexivity.
  - reflexivity.
  - reflexivity.
  - reflexivity.
  - exists t. auto.
Defined.

Lemma plan_fixed_constants_witness :
  exists t resources lsn,
    result
      (plan Demo.aws Demo.shown Demo.shown "us-west-2" "prod"
         [Demo.v1; Demo.v2] [])
    = Ok (Demo.shown t)
    /\ item t "Resources" = Some (PDict resources)
    /\ dict_get resources "ALBListenerprod" = Some lsn
    /\ path lsn ["Properties"; "Port"] = Some (PInt 80).
Proof.
  destruct
    (plan_fixed_constants Demo.world Demo.aws Demo.shown Demo.shown
       "us-west-2" "prod" [Demo.v1; Demo.v2] []
       [["i-aaa"; "i-bbb"]; ["i-ccc"]] []
       (effects (discover_all Demo.aws Demo.shown "us-west-2"
                   [Demo.v1; Demo.v2] [])))
    as (t & resources & lsn & H1 & H2 & H3 & H4 & _).
  - reflexivity.
  - reflexivity.
  - exists t, resources, lsn. auto.
Defined.

Lemma demo_only_create_signals_exists :
  only_create_signals_exists Demo.aws.
Proof.
  unfold only_create_signals_exists; simpl. repeat split; intros.
  - destruct (Demo.has_stack n w); discriminate.
  - destruct (Demo.has_stack n w); discriminate.
  - discriminate.
  - discriminate.
  - discriminate.
Defined.

Lemma apply_create_then_update_witness :
  fst (cfn_create_stack Demo.aws (boto3_client "cloudformation" "eu-west-1")
         "prod" "{}" Demo.parameters ["prod"])
  = Raised AlreadyExistsException
  /\ (exists line rest,
         effects (apply Demo.aws "eu-west-1" "prod" "{}" Demo.parameters
                    ["prod"])
         = Print line
             :: CreateStack (boto3_client "cloudformation" "eu-west-1")
                  "prod" "{}" Demo.parameters
             :: UpdateStack (boto3_client "cloudformation" "eu-west-1")
                  "prod" "{}" Demo.parameters
             :: rest)
  /\ result (apply Demo.aws "eu-west-1" "prod" "{}" Demo.parameters ["prod"])
     <> Raised AlreadyExistsException.
Proof.
  pose proof (apply_create_then_update Demo.world Demo.aws "eu-west-1" "prod"
                "{}" Demo.parameters ["prod"]) as H.
  cbv zeta in H. destruct H as (_ & Hupdate & _ & Hresult).
  split; [reflexivity|]. split.
  - apply Hupdate. reflexivity.
  - apply Hresult. exact demo_only_create_signals_exists.
Defined.

(** C3 fails on the code: the create path waits with the empty
    configuration and the update path with a delay of 2 seconds, which is
    not longer than the 30 seconds of the waiter's own delay. *)
Lemma apply_waits_polling_faster_on_update :
  wait_configs
    (effects (apply Demo.aws "eu-west-1" "prod" "{}" Demo.parameters []))
  = [[]]
  /\ wait_configs
       (effects
          (apply Demo.aws "eu-west-1" "prod" "{}" Demo.parameters ["prod"]))
     = [[("Delay", 2)]]
  /\ ~ (waiter_delay stack_waiter_model_delay []
        < waiter_delay stack_waiter_model_delay [("Delay", 2)]).
Proof.
  split; [reflexivity|]. split; [reflexivity|].
  vm_compute. discriminate.
Qed.

Lemma apply_wait_configuration_witness :
  In (Wait (get_waiter (boto3_client "cloudformation" "eu-west-1")
              "stack_update_complete")
        "prod" [("Delay", 2)])
     (effects
        (apply Demo.aws "eu-west-1" "prod" "{}" Demo.parameters ["prod"]))
  /\ wait_configs
       (effects
          (apply Demo.aws "eu-west-1" "prod" "{}" Demo.parameters ["prod"]))
     = [[("Delay", 2)]]
  /\ fst (cfn_create_stack Demo.aws
            (boto3_client "cloudformation" "eu-west-1") "prod" "{}"
            Demo.parameters ["prod"])
     = Raised AlreadyExistsException
  /\ waiter_delay stack_waiter_model_delay [("Delay", 2)] = 2.
Proof.
  pose proof (apply_wait_configuration Demo.world Demo.aws "eu-west-1" "prod"
                "{}" Demo.parameters ["prod"]) as H.
  cbv zeta in H.
  destruct H as (_ & Hwait & _ & Hupdate & _ & Hdelay & _).
  destruct (Hupdate ["prod"] ["prod"]
              {| StackId := "arn:aws:cloudformation:stack/prod" |} []
              ["prod"] eq_refl eq_refl eq_refl) as (Hin & Hcfg).
  split; [exact Hin|]. split; [exact Hcfg|].
  destruct (Hwait _ _ _ Hin) as (_ & [(Hc & _)|(Hc & _)]).
  - discriminate Hc.
  - split; [exact Hc | apply Hdelay].
Defined.

(** C4 fails on the code: a successful [apply] prints the DNS name and
    its value is [None], not the address. *)
Lemma apply_returns_none :
  result (apply Demo.aws "eu-west-1" "prod" "{}" Demo.parameters [])
  = Ok PNone
  /\ In (Print "The DNS name of your ALB is prod-alb.elb.amazonaws.com.")
       (effects (apply Demo.aws "eu-west-1" "prod" "{}" Demo.parameters []))
  /\ result (apply Demo.aws "eu-west-1" "prod" "{}" Demo.parameters [])
     <> Ok (PStr "prod-alb.elb.amazonaws.com").
Proof.
  split; [reflexivity|]. split.
  - vm_compute. do 8 right. now left.
  - vm_compute. discriminate.
Qed.

Lemma apply_prints_dns_name_witness :
  result (apply Demo.aws "eu-west-1" "prod" "{}" Demo.parameters [])
  = Ok PNone
  /\ exists before wt cfg detail lb,
      effects (apply Demo.aws "eu-west-1" "prod" "{}" Demo.parameters [])
      = (before ++
           [Wait wt "prod" cfg;
            Print ("Finished deploying the cloudformation template."
                     ++ String "010" "");
            DescribeStackResource (boto3_client "cloudformation" "eu-west-1")
              "prod" "ALBprod";
            DescribeLoadBalancers (boto3_client "elbv2" "us-west-2")
              [PhysicalResourceId detail];
            Print ("The DNS name of your ALB is " ++ DNSName lb ++ ".")])%list.
Proof.
  pose proof (apply_prints_dns_name Demo.world Demo.aws "eu-west-1" "prod"
                "{}" Demo.parameters [] PNone) as H.
  cbv zeta in H.
  destruct H as (_ & before & wt & cfg & detail & lb & Heff & _).
  - reflexivity.
  - split; [reflexivity|]. exists before, wt, cfg, detail, lb. exact Heff.
Defined.

Lemma apply_dns_lookup_region_witness :
  exists arns,
    In (DescribeLoadBalancers (boto3_client "elbv2" "us-west-2") arns)
       (effects (apply Demo.aws "eu-west-1" "prod" "{}" Demo.parameters [])).
Proof.
  pose proof (apply_dns_lookup_region Demo.world Demo.aws "eu-west-1" "prod"
                "{}" Demo.parameters []) as H.
  cbv zeta in H. destruct H as (_ & Hlookup & _).
  apply (Hlookup PNone). reflexivity.
Defined.

Lemma delete_waits_and_propagates_witness :
  cfn_delete_stack Demo.aws (boto3_client "cloudformation" "eu-west-1")
    "prod" ["prod"]
  = (Ok tt, [])
  /\ (exists line rest,
         effects (delete Demo.aws "eu-west-1" "prod" ["prod"])
         = Print line
             :: DeleteStack (boto3_client "cloudformation" "eu-west-1") "prod"
             :: Wait (get_waiter (boto3_client "cloudformation" "eu-west-1")
                        "stack_delete_complete")
                  "prod" [("Delay", 1)]
             :: rest)
  /\ result (delete Demo.aws "eu-west-1" "prod" ["prod"]) = Ok PNone.
Proof.
  pose proof (delete_waits_and_propagates Demo.world Demo.aws "eu-west-1"
                "prod" ["prod"]) as H.
  cbv zeta in H. destruct H as (_ & _ & Hok & _).
  split; [reflexivity|].
  destruct (Hok [] eq_refl) as (Heff & Hres).
  split; [exact Heff | exact Hres].
Defined.

(** ** More on discovery and the planner *)

Section Discovery.

Variable W : Type.
Variable aws : services W.
Variable str : pyval -> string.
Variable json_dumps : pyval -> string.

Lemma find_instances_effects (region : string) (cl : list string) (w : W)
  (ev : event) :
  In ev (effects (find_instances aws str region cl w)) ->
  (exists line, ev = Print line) \/ ev = discovery_request region cl.
Proof.
  unfold find_instances, describe_instances, print, perform, bind, effects.
  simpl.
  destruct (ec2_describe_instances aws _ _ w) as [[resp|e] w1]; simpl;
    intros H;
    repeat (destruct H as [<-|H]; [eauto|]); contradiction.
Qed.

Lemma flat_map_length_sum {A B} (f : A -> list B) (l : list A) :
  length (flat_map f l) = list_sum (map (fun x => length (f x)) l).
Proof.
  induction l as [|x l IH]; simpl; [reflexivity|].
  now rewrite length_app, IH.
Qed.

(** X1. When EC2 answers with reservations, [find_instances] returns the
    instance ids of all of them, reservation after reservation, as many as
    the reservations hold together; it has made one request, and the
    count it prints is the number of ids it returns. *)
Theorem find_instances_lists_every_instance (region : string)
  (cl : list string) (w : W) (reservations : list Reservation) (w1 : W) :
  ec2_describe_instances aws (boto3_client "ec2" region)
    [ {| Name := "tag:anyscale-session-id"; Values := cl |};
      {| Name := "instance-state-name"; Values := ["running"] |} ] w
  = (Ok reservations, w1) ->
  let ids := flat_map (fun r => map InstanceId (Instances r)) reservations in
  let run := find_instances aws str region cl w in
  result run = Ok ids
  /\ world run = w1
  /\ length ids
     = list_sum (map (fun r => length (Instances r)) reservations)
  /\ filter is_discovery (effects run) = [discovery_request region cl]
  /\ In (Print ("Found " ++ str (PInt (Z.of_nat (length ids)))
                  ++ " instances with these cluster ids: "
                  ++ str (PList (map PStr cl)) ++ "." ++ String "010" ""))
       (effects run).
Proof.
  intros Hec2. cbv zeta.
  split; [|split; [|split; [|split]]].
  - rewrite find_instances_result, Hec2. simpl.
    now rewrite collect_instance_ids_flat.
  - unfold find_instances, describe_instances, print, perform, bind, world.
    simpl. rewrite Hec2. reflexivity.
  - rewrite flat_map_length_sum. f_equal. apply map_ext.
    intros r. apply length_map.
  - apply find_instances_requests.
  - unfold find_instances, describe_instances, print, perform, bind, effects.
    simpl. rewrite Hec2. simpl. rewrite collect_instance_ids_flat.
    right; right; left. reflexivity.
Qed.

(** X2. When EC2 raises an exception, [find_instances] raises the same
    exception right after the request: the line with the count is not
    printed. *)
Theorem find_instances_propagates_error (region : string)
  (cl : list string) (w : W) (e : exn) (w1 : W) :
  ec2_describe_instances aws (boto3_client "ec2" region)
    [ {| Name := "tag:anyscale-session-id"; Values := cl |};
      {| Name := "instance-state-name"; Values := ["running"] |} ] w
  = (Raised e, w1) ->
  find_instances aws str region cl w
  = (Raised e, w1,
     [Print ("Searching for all instances with these cluster ids: "
               ++ str (PList (map PStr cl)) ++ " ...");
      discovery_request region cl]).
Proof.
  intros Hec2.
  unfold find_instances, describe_instances, print, perform, bind.
  simpl. rewrite Hec2. reflexivity.
Qed.

(** The effects of the discovery calls, however they end. *)
Lemma discover_all_effects (region : string) (versions : list VersionSpec) :
  forall w ev,
    In ev (effects (discover_all aws str region versions w)) ->
    (exists line, ev = Print line)
    \/ exists v, In v versions /\ ev = discovery_request region (clusters v).
Proof.
  induction versions as [|v vs IH]; intros w ev; simpl.
  - intros [].
  - unfold bind.
    pose proof (find_instances_effects region (clusters v) w ev) as Hfirst.
    destruct (find_instances aws str region (clusters v) w)
      as [[[a|e] w0] l0]; unfold effects in *; simpl in *.
    + specialize (IH w0 ev).
      destruct (discover_all aws str region vs w0) as [[[rest|e] w2] l2];
        simpl in *; rewrite ?app_nil_r; intros Hin;
        apply in_app_iff in Hin as [Hin|Hin];
        try (destruct (Hfirst Hin) as [Hp| ->]; [now left | right; eauto]);
        destruct (IH Hin) as [Hp|(v' & Hv' & ->)];
        [now left | right; eauto | now left | right; eauto].
    + intros Hin.
      destruct (Hfirst Hin) as [Hp| ->]; [now left | right; eauto].
Qed.

(** The discovery calls stop at the first one that fails. *)
Lemma discover_all_raised (region : string) (versions : list VersionSpec) :
  forall w e w1 l,
    discover_all aws str region versions w = (Raised e, w1, l) ->
    exists before v after,
      versions = (before ++ v :: after)%list
      /\ filter is_discovery l
         = map (fun v => discovery_request region (clusters v))
             (before ++ [v]).
Proof.
  induction versions as [|v vs IH]; intros w e w1 l; simpl.
  - unfold ret. discriminate.
  - unfold bind.
    pose proof (find_instances_requests W aws str region (clusters v) w)
      as Hreq.
    destruct (find_instances aws str region (clusters v) w)
      as [[[a|e0] w0] l0]; unfold effects in Hreq; simpl in Hreq.
    + destruct (discover_all aws str region vs w0)
        as [[[rest|e1] w2] l2] eqn:E; simpl; [discriminate|].
      intros H; injection H as _ _ <-.
      destruct (IH w0 e1 w2 l2 E) as (before & v' & after & -> & Hl).
      exists (v :: before), v', after. split; [reflexivity|].
      rewrite filter_app, Hreq, Hl. reflexivity.
    + intros H; injection H as _ _ <-.
      exists [], v, vs. split; [reflexivity | exact Hreq].
Qed.

(** X3. Whatever happens, [plan] only prints, asks EC2 in the region it
    is given for the instances of the clusters of one of its versions, and
    writes the file [cf_template.json]: it makes no call to CloudFormation
    or to the load-balancer service. *)
Theorem plan_effects_confined (region stack_name : string)
  (versions : list VersionSpec) (w : W) (ev : event) :
  In ev (effects (plan aws str json_dumps region stack_name versions w)) ->
  (exists line, ev = Print line)
  \/ (exists v, In v versions /\ ev = discovery_request region (clusters v))
  \/ (exists content, ev = WriteFile "cf_template.json" content).
Proof.
  pose proof (discover_all_effects region versions w) as Hd.
  destruct (discover_all aws str region versions w)
    as [[[found|e] w1] l] eqn:E; unfold effects in Hd; simpl in Hd.
  - pose proof (plan_run W aws str json_dumps region stack_name versions
                  w found w1 l E) as Hrun.
    cbv zeta in Hrun. rewrite Hrun.
    destruct (fs_write aws "cf_template.json" _ w1) as [[[]|e] w2];
      unfold effects; simpl; rewrite in_app_iff; simpl;
      intros [<-|[Hin|Hin]]; eauto;
      try (destruct (Hd ev Hin) as [Hp|Hv]; [now left | right; now left]);
      repeat (destruct Hin as [<-|Hin]; eauto); contradiction.
  - rewrite (plan_run_raised W aws str json_dumps region stack_name versions
               w e w1 l E).
    unfold effects; simpl. intros [<-|Hin]; eauto.
    destruct (Hd ev Hin) as [Hp|Hv]; [now left | right; now left].
Qed.

(** X4. When a discovery call fails, [plan] raises its exception at once:
    the versions after the failing one are not looked up, and no file is
    written. *)
Theorem plan_stops_at_failed_discovery (region stack_name : string)
  (versions : list VersionSpec) (w : W) (e : exn) (w1 : W)
  (l : list event) :
  discover_all aws str region versions w = (Raised e, w1, l) ->
  let run := plan aws str json_dumps region stack_name versions w in
  result run = Raised e
  /\ world run = w1
  /\ (forall file_name content,
         ~ In (WriteFile file_name content) (effects run))
  /\ exists before v after,
      versions = (before ++ v :: after)%list
      /\ filter is_discovery (effects run)
         = map (fun v => discovery_request region (clusters v))
             (before ++ [v]).
Proof.
  intros Hd. cbv zeta.
  rewrite (plan_run_raised W aws str json_dumps region stack_name versions
             w e w1 l Hd).
  split; [reflexivity|]. split; [reflexivity|]. split.
  - intros f c. unfold effects; simpl. intros [H|H]; [discriminate H|].
    pose proof (discover_all_effects region versions w (WriteFile f c)) as He.
    rewrite Hd in He. destruct (He H) as [[line Hp]|(v & _ & Hp)];
      discriminate Hp.
  - destruct (discover_all_raised region versions w e w1 l Hd)
      as (before & v & after & Hv & Hl).
    exists before, v, after. split; [exact Hv | exact Hl].
Qed.

(** X5. When every discovery call succeeds but the file cannot be
    written, [plan] raises the exception of the write: the template is not
    returned, and the write is the last thing [plan] did. *)
Theorem plan_write_error_propagates (region stack_name : string)
  (versions : list VersionSpec) (w : W) (found : list (list string))
  (w1 : W) (l : list event) (e : exn) :
  discover_all aws str region versions w = (Ok found, w1, l) ->
  (forall content,
      fst (fs_write aws "cf_template.json" content w1) = Raised e) ->
  let run := plan aws str json_dumps region stack_name versions w in
  result run = Raised e
  /\ exists before content,
      effects run = (before ++ [WriteFile "cf_template.json" content])%list.
Proof.
  intros Hd Hw. cbv zeta.
  pose proof (plan_run W aws str json_dumps region stack_name versions
                w found w1 l Hd) as Hrun.
  cbv zeta in Hrun. rewrite Hrun.
  specialize (Hw (json_dumps (cf_template stack_name versions found))).
  destruct (fs_write aws "cf_template.json" _ w1) as [[[]|e'] w2];
    simpl in Hw; [discriminate|]. injection Hw as ->.
  split; [reflexivity|].
  eexists (_ :: l), _. reflexivity.
Qed.

(** X6. The string [plan] returns is the content of the file it wrote,
    and [plan] writes no other file. *)
Theorem plan_returns_written_file (region stack_name : string)
  (versions : list VersionSpec) (w : W) (body : string) :
  let run := plan aws str json_dumps region stack_name versions w in
  result run = Ok body ->
  In (WriteFile "cf_template.json" body) (effects run)
  /\ forall file_name content,
      In (WriteFile file_name content) (effects run) ->
      file_name = "cf_template.json" /\ content = body.
Proof.
  cbv zeta.
  pose proof (discover_all_effects region versions w) as He.
  destruct (discover_all aws str region versions w)
    as [[[found|e] w1] l] eqn:E; unfold effects in He; simpl in He.
  - pose proof (plan_run W aws str json_dumps region stack_name versions
                  w found w1 l E) as Hrun.
    cbv zeta in Hrun. rewrite Hrun.
    destruct (fs_write aws "cf_template.json" _ w1) as [[[]|e] w2];
      unfold result, effects; simpl; intros H; [|discriminate H].
    injection H as <-. split.
    + right. apply in_or_app. right. now left.
    + intros f c [H|H]; [discriminate H|].
      apply in_app_iff in H as [H|H].
      * destruct (He _ H) as [[line Hp]|(v & _ & Hp)]; discriminate Hp.
      * destruct H as [H|[H|[]]]; [|discriminate H].
        injection H as <- <-. now split.
  - rewrite (plan_run_raised W aws str json_dumps region stack_name versions
               w e w1 l E).
    unfold result; simpl. discriminate.
Qed.

End Discovery.

(** ** References and names in the template *)

Lemma append_assoc (a b c : string) : (a ++ b) ++ c = a ++ b ++ c.
Proof.
  induction a as [|x a IH]; simpl; [reflexivity | now rewrite IH].
Qed.

Lemma dict_get_In (d : dict) (k : string) (v : pyval) :
  dict_get d k = Some v -> In (k, v) d.
Proof.
  induction d as [|[k' v'] d IH]; simpl; [discriminate|].
  destruct (String.eqb_spec k' k) as [->|_].
  - intros H; injection H as ->. now left.
  - intros H. right. now apply IH.
Qed.

Lemma dict_get_NoDup_In (d : dict) (k : string) (v : pyval) :
  NoDup (map fst d) -> In (k, v) d -> dict_get d k = Some v.
Proof.
  induction d as [|[k' v'] d IH]; simpl; intros Hnd Hin; [destruct Hin|].
  inversion Hnd as [|? ? Hnin Hnd']; subst.
  destruct Hin as [H|H].
  - injection H as -> ->. now rewrite String.eqb_refl.
  - destruct (String.eqb_spec k' k) as [->|_]; [|now apply IH].
    exfalso. apply Hnin. apply in_map_iff. now exists (k, v).
Qed.

Lemma add_target_groups_keys (stack_name : string)
  (versions : list VersionSpec) :
  forall found resources k,
    In k (map fst (add_target_groups stack_name versions found resources)) ->
    In k (map fst resources)
    \/ In k (map (fun v => tg_key stack_name (version v)) versions).
Proof.
  induction versions as [|v vs IH]; intros found resources k; simpl.
  - now left.
  - destruct found as [|r found]; [now left|].
    intros H. apply IH in H as [H|H]; [|now right; right].
    apply dict_set_keys in H as [->|H]; [right; now left | now left].
Qed.

Lemma resources_alb (stack_name : string) (versions : list VersionSpec)
  (found : list (list string)) :
  dict_get
    (add_target_groups stack_name versions found
       (base_resources stack_name versions))
    (alb_key stack_name)
  = Some (load_balancer stack_name).
Proof.
  rewrite add_target_groups_other.
  - rewrite base_resources_eq. simpl. now rewrite String.eqb_refl.
  - rewrite in_map_iff. intros [v [E _]]. now apply tg_key_not_alb in E.
Qed.

Lemma resources_keys_NoDup (stack_name : string)
  (versions : list VersionSpec) (found : list (list string)) :
  NoDup
    (map fst
       (add_target_groups stack_name versions found
          (base_resources stack_name versions))).
Proof.
  apply add_target_groups_keys_NoDup. rewrite base_resources_eq. simpl.
  constructor; [|constructor; [intros [] | constructor]].
  intros [E|[]]. symmetry in E. now apply alb_key_not_listener in E.
Qed.

Section References.

Variable W : Type.
Variable aws : services W.
Variable str : pyval -> string.
Variable json_dumps : pyval -> string.

(** X7. In every template [plan] produces, labels repeated or not, no
    reference dangles: each entry of the forwarding rule refers to a
    resource of the template that is a target group, and the listener
    refers to the load balancer [ALB<stack_name>], which is a resource of
    the template too. *)
Theorem plan_references_resolve (region stack_name : string)
  (versions : list VersionSpec) (w : W) (found : list (list string))
  (w1 : W) (l : list event) :
  discover_all aws str region versions w = (Ok found, w1, l) ->
  (forall content,
      fst (fs_write aws "cf_template.json" content w1) = Ok tt) ->
  exists (t : pyval) (resources : dict) (lsn alb : pyval)
         (entries : list pyval),
    result (plan aws str json_dumps region stack_name versions w)
    = Ok (json_dumps t)
    /\ item t "Resources" = Some (PDict resources)
    /\ dict_get resources (listener_key stack_name) = Some lsn
    /\ forwarding_entries lsn = Some entries
    /\ length entries = length versions
    /\ (forall entry,
           In entry entries ->
           exists ref wt pool,
             pool_weight entry = Some (ref, wt)
             /\ dict_get resources ref = Some pool
             /\ is_target_group (ref, pool) = true)
    /\ path lsn ["Properties"; "LoadBalancerArn"; "Ref"]
       = Some (PStr (alb_key stack_name))
    /\ dict_get resources (alb_key stack_name) = Some alb
    /\ item alb "Type"
       = Some (PStr "AWS::ElasticLoadBalancingV2::LoadBalancer").
Proof.
  intros Hd Hw.
  pose proof (discover_all_length W aws str region versions w found w1 l Hd)
    as Hlen.
  destruct (plan_succeeds W aws str json_dumps region stack_name versions
              w found w1 l Hd Hw) as [Hres _].
  exists (cf_template stack_name versions found),
    (add_target_groups stack_name versions found
       (base_resources stack_name versions)),
    (listener stack_name versions), (load_balancer stack_name),
    (forward_entries stack_name versions).
  split; [exact Hres|]. split; [reflexivity|].
  split; [apply resources_listener|]. split; [reflexivity|].
  split; [now rewrite forward_entries_map, length_map|].
  split.
  { intros entry Hin. rewrite forward_entries_map in Hin.
    apply in_map_iff in Hin as (v & <- & Hv).
    destruct (add_target_groups_defined stack_name versions found
                (base_resources stack_name versions)
                (tg_key stack_name (version v)) Hlen)
      as (v' & r & Hget).
    - apply in_map_iff. now exists v.
    - exists (tg_key stack_name (version v)), (weight v),
        (target_group stack_name v' r).
      split; [reflexivity|]. split; [exact Hget | reflexivity]. }
  split; [reflexivity|]. split; [apply resources_alb | reflexivity].
Qed.

(** X8. The resources of a template are the load balancer, the listener
    and one target group per label of the input, and nothing else; every
    target group of the template is referred to by an entry of the
    forwarding rule. *)
Theorem plan_pools_all_referenced (region stack_name : string)
  (versions : list VersionSpec) (w : W) (found : list (list string))
  (w1 : W) (l : list event) :
  discover_all aws str region versions w = (Ok found, w1, l) ->
  (forall content,
      fst (fs_write aws "cf_template.json" content w1) = Ok tt) ->
  exists (t : pyval) (resources : dict) (lsn : pyval)
         (entries : list pyval),
    result (plan aws str json_dumps region stack_name versions w)
    = Ok (json_dumps t)
    /\ item t "Resources" = Some (PDict resources)
    /\ dict_get resources (listener_key stack_name) = Some lsn
    /\ forwarding_entries lsn = Some entries
    /\ (forall k,
           In k (map fst resources) <->
           k = alb_key stack_name \/ k = listener_key stack_name
           \/ exists v, In v versions /\ k = tg_key stack_name (version v))
    /\ (forall k pool,
           In (k, pool) resources ->
           is_target_group (k, pool) = true ->
           exists entry wt,
             In entry entries /\ pool_weight entry = Some (k, wt)).
Proof.
  intros Hd Hw.
  pose proof (discover_all_length W aws str region versions w found w1 l Hd)
    as Hlen.
  destruct (plan_succeeds W aws str json_dumps region stack_name versions
              w found w1 l Hd Hw) as [Hres _].
  set (resources := add_target_groups stack_name versions found
                      (base_resources stack_name versions)).
  assert (Hkeys :
           forall k,
             In k (map fst resources) <->
             k = alb_key stack_name \/ k = listener_key stack_name
             \/ exists v,
                 In v versions /\ k = tg_key stack_name (version v)).
  { intros k. split.
    - intros H. apply add_target_groups_keys in H as [H|H].
      + rewrite base_resources_eq in H. simpl in H.
        destruct H as [<-|[<-|[]]]; [now left | right; now left].
      + apply in_map_iff in H as (v & <- & Hv). right; right. eauto.
    - intros [->|[->|(v & Hv & ->)]].
      + apply in_map_iff. exists (alb_key stack_name, load_balancer stack_name).
        split; [reflexivity|]. apply dict_get_In. apply resources_alb.
      + apply in_map_iff.
        exists (listener_key stack_name, listener stack_name versions).
        split; [reflexivity|]. apply dict_get_In. apply resources_listener.
      + destruct (add_target_groups_defined stack_name versions found
                    (base_resources stack_name versions)
                    (tg_key stack_name (version v)) Hlen)
          as (v' & r & Hget).
        * apply in_map_iff. now exists v.
        * apply in_map_iff. eexists (_, _). split; [reflexivity|].
          apply dict_get_In. exact Hget. }
  exists (cf_template stack_name versions found), resources,
    (listener stack_name versions), (forward_entries stack_name versions).
  split; [exact Hres|]. split; [reflexivity|].
  split; [apply resources_listener|]. split; [reflexivity|].
  split; [exact Hkeys|].
  intros k pool Hin Htg.
  assert (Hget : dict_get resources k = Some pool)
    by (apply dict_get_NoDup_In; [apply resources_keys_NoDup | exact Hin]).
  assert (Hk : In k (map fst resources))
    by (apply in_map_iff; now exists (k, pool)).
  apply Hkeys in Hk as [->|[->|(v & Hv & ->)]].
  - unfold resources in Hget. rewrite resources_alb in Hget.
    injection Hget as <-. discriminate Htg.
  - unfold resources in Hget. rewrite resources_listener in Hget.
    injection Hget as <-. discriminate Htg.
  - exists (PDict [("TargetGroupArn",
                     PDict [("Ref", PStr (tg_key stack_name (version v)))]);
                   ("Weight", PInt (weight v))]), (weight v).
    split; [|reflexivity].
    rewrite forward_entries_map. apply in_map_iff. now exists v.
Qed.

(** X9. An empty list of versions is not rejected: [plan] makes no remote
    call and returns a template with the load balancer and a listener
    whose forwarding rule has no entry. *)
Theorem plan_empty_versions (region stack_name : string) (w : W) :
  (forall content,
      fst (fs_write aws "cf_template.json" content w) = Ok tt) ->
  exists (t alb lsn : pyval),
    result (plan aws str json_dumps region stack_name [] w)
    = Ok (json_dumps t)
    /\ remote_calls
         (effects (plan aws str json_dumps region stack_name [] w))
       = []
    /\ item t "Resources"
       = Some (PDict [(alb_key stack_name, alb);
                      (listener_key stack_name, lsn)])
    /\ forwarding_entries lsn = Some [].
Proof.
  intros Hw.
  pose proof (plan_run W aws str json_dumps region stack_name [] w [] w []
                eq_refl) as Hrun.
  cbv zeta in Hrun.
  specialize (Hw (json_dumps (cf_template stack_name [] []))).
  destruct (fs_write aws "cf_template.json" _ w) as [[[]|e] w2];
    simpl in Hw; [|discriminate].
  exists (cf_template stack_name [] []), (load_balancer stack_name),
    (listener stack_name []).
  rewrite Hrun. split; [reflexivity|]. split; [reflexivity|].
  split; [|reflexivity].
  unfold cf_template. cbn [item dict_get add_target_groups].
  simpl String.eqb. cbv iota. now rewrite base_resources_eq.
Qed.

End References.

(** X10. Within one stack the names never collide: two labels with the
    same logical name, or with the same target-group name, are the same
    label, and no target group takes the logical name of the load
    balancer or of the listener. *)
Theorem template_names_distinct (stack_name : string) :
  (forall a b, tg_key stack_name a = tg_key stack_name b -> a = b)
  /\ (forall v1 v2 r1 r2,
         path (target_group stack_name v1 r1) ["Properties"; "Name"]
         = path (target_group stack_name v2 r2) ["Properties"; "Name"] ->
         version v1 = version v2)
  /\ (forall a,
         tg_key stack_name a <> alb_key stack_name
         /\ tg_key stack_name a <> listener_key stack_name)
  /\ alb_key stack_name <> listener_key stack_name.
Proof.
  split; [intros a b; apply tg_key_inj|].
  split.
  { intros v1 v2 r1 r2 H. cbn in H. injection H as H.
    change (version v1 ++ String "-" stack_name
            = version v2 ++ String "-" stack_name) in H.
    now apply append_inj_l in H. }
  split; [|apply alb_key_not_listener].
  intros a. split; [apply tg_key_not_alb | apply tg_key_not_listener].
Qed.

(** X11. Across stacks the names are not kept apart.  The logical name
    of a target group is the plain concatenation of label and stack
    name: the label [a] in the stack [b ++ s] gets the logical name of the
    label [a ++ b] in the stack [s].  Its target-group name joins label
    and stack name with a dash: the label [a] in the stack [b-s] gets the
    target-group name of the label [a-b] in the stack [s]. *)
Theorem names_shared_across_stacks (a b s : string) (w1 w2 : Z)
  (c1 c2 r1 r2 : list string) :
  tg_key (b ++ s) a = tg_key s (a ++ b)
  /\ path
       (target_group (b ++ "-" ++ s)
          {| version := a; weight := w1; clusters := c1 |} r1)
       ["Properties"; "Name"]
     = path
         (target_group s
            {| version := a ++ "-" ++ b; weight := w2; clusters := c2 |} r2)
         ["Properties"; "Name"].
Proof.
  split.
  - unfold tg_key. now rewrite append_assoc.
  - cbn. rewrite append_assoc. reflexivity.
Qed.

(** ** More on the reconciler *)

Section Convergence.

Variable W : Type.
Variable aws : services W.

(** X12. The remote calls of [apply] always come in the same order:
    creation, the update if there is one, the description of the stack,
    the wait, the lookup of the load-balancer resource and the lookup of
    its address.  A run that fails stops somewhere in this sequence; a run
    that succeeds has made all of it.  [apply] never deletes a stack and
    writes no file. *)
Theorem apply_call_order (region stack_name cf_template : string)
  (parameters : list StackParameter) (w : W) :
  let run := apply aws region stack_name cf_template parameters w in
  exists rest,
    ([KCreate; KDescribeStacks; KWait; KDescribeResource;
      KDescribeLoadBalancers]
     = (remote_calls (effects run) ++ rest)%list
     \/ [KCreate; KUpdate; KDescribeStacks; KWait; KDescribeResource;
         KDescribeLoadBalancers]
        = (remote_calls (effects run) ++ rest)%list)
    /\ (forall v, result run = Ok v -> rest = [])
    /\ ~ In KDelete (remote_calls (effects run))
    /\ (forall file_name content,
           ~ In (WriteFile file_name content) (effects run)).
Proof.
  cbv zeta. unfold_run. split_run.
  all: cbn [fst snd app remote_calls flat_map kind_of].
  all: eexists.
  all: split; [first [left; reflexivity | right; reflexivity]|].
  all: split; [intros v Hok; try discriminate Hok; reflexivity|].
  all: split;
    [intros Hin; cbn [In] in Hin;
     repeat (destruct Hin as [Hin|Hin]; try discriminate Hin); exact Hin|].
  all: intros f c Hin; cbn [In] in Hin.
  all: repeat (destruct Hin as [Hin|Hin]; try discriminate Hin).
  all: exact Hin.
Qed.

(** X13. The create path to the end: when the creation is accepted, the
    stack is described, the wait on [stack_create_complete] converges and
    both lookups answer, [apply] succeeds; it has printed the console
    address of the first stack of the description, built from [region],
    and the DNS name of the first load balancer of the answer. *)
Theorem apply_converges_on_create_path (region stack_name cf_template : string)
  (parameters : list StackParameter) (w w1 w2 w3 w4 w5 : W)
  (stack : Stack) (stacks : list Stack) (detail : StackResourceDetail)
  (lb : LoadBalancer) (lbs : list LoadBalancer) :
  let c := boto3_client "cloudformation" region in
  let elb := boto3_client "elbv2" "us-west-2" in
  let wt := get_waiter c "stack_create_complete" in
  cfn_create_stack aws c stack_name cf_template parameters w = (Ok tt, w1) ->
  cfn_describe_stacks aws c stack_name w1 = (Ok (stack :: stacks), w2) ->
  cfn_wait aws wt stack_name [] w2 = (Ok tt, w3) ->
  cfn_describe_stack_resource aws c stack_name ("ALB" ++ stack_name) w3
  = (Ok detail, w4) ->
  elbv2_describe_load_balancers aws elb [PhysicalResourceId detail] w4
  = (Ok (lb :: lbs), w5) ->
  apply aws region stack_name cf_template parameters w
  = (Ok PNone, w5,
     [Print ("Applying the cloudformation template ..." ++ String "010" "");
      CreateStack c stack_name cf_template parameters;
      DescribeStacks c stack_name;
      Print ("View your stack at "
               ++ ("https://" ++ region
                     ++ ".console.aws.amazon.com/cloudformation/home?region="
                     ++ region ++ "#stacks/stackinfo?stackId="
                     ++ StackId stack)
               ++ "." ++ String "010" "");
      Wait wt stack_name [];
      Print ("Finished deploying the cloudformation template."
               ++ String "010" "");
      DescribeStackResource c stack_name ("ALB" ++ stack_name);
      DescribeLoadBalancers elb [PhysicalResourceId detail];
      Print ("The DNS name of your ALB is " ++ DNSName lb ++ ".")]).
Proof.
  cbv zeta. intros Hc Hd Hw Hr Hl. unfold_run.
  rewrite Hc; cbv beta iota. rewrite Hd; cbv beta iota.
  rewrite Hw; cbv beta iota. rewrite Hr; cbv beta iota.
  rewrite Hl; cbv beta iota.
  reflexivity.
Qed.

(** X14. The update path to the end: when the creation answers "already
    exists" and the update is accepted, [apply] goes on as on the create
    path, with the waiter [stack_update_complete] and a delay of 2
    seconds, and succeeds under the same conditions. *)
Theorem apply_converges_on_update_path (region stack_name cf_template : string)
  (parameters : list StackParameter) (w w0 w1 w2 w3 w4 w5 : W)
  (stack : Stack) (stacks : list Stack) (detail : StackResourceDetail)
  (lb : LoadBalancer) (lbs : list LoadBalancer) :
  let c := boto3_client "cloudformation" region in
  let elb := boto3_client "elbv2" "us-west-2" in
  let wt := get_waiter c "stack_update_complete" in
  cfn_create_stack aws c stack_name cf_template parameters w
  = (Raised AlreadyExistsException, w0) ->
  cfn_update_stack aws c stack_name cf_template parameters w0
  = (Ok tt, w1) ->
  cfn_describe_stacks aws c stack_name w1 = (Ok (stack :: stacks), w2) ->
  cfn_wait aws wt stack_name [("Delay", 2)] w2 = (Ok tt, w3) ->
  cfn_describe_stack_resource aws c stack_name ("ALB" ++ stack_name) w3
  = (Ok detail, w4) ->
  elbv2_describe_load_balancers aws elb [PhysicalResourceId detail] w4
  = (Ok (lb :: lbs), w5) ->
  let run := apply aws region stack_name cf_template parameters w in
  result run = Ok PNone
  /\ world run = w5
  /\ remote_calls (effects run)
     = [KCreate; KUpdate; KDescribeStacks; KWait; KDescribeResource;
        KDescribeLoadBalancers]
  /\ In (Wait wt stack_name [("Delay", 2)]) (effects run)
  /\ In (Print ("The DNS name of your ALB is " ++ DNSName lb ++ "."))
       (effects run).
Proof.
  cbv zeta. intros Hc Hu Hd Hw Hr Hl. unfold_run.
  rewrite Hc; cbv beta iota. rewrite Hu; cbv beta iota.
  rewrite Hd; cbv beta iota. rewrite Hw; cbv beta iota.
  rewrite Hr; cbv beta iota. rewrite Hl; cbv beta iota.
  cbn [fst snd app remote_calls flat_map kind_of].
  split; [reflexivity|]. split; [reflexivity|]. split; [reflexivity|].
  split; cbn [In]; do 12 (try (left; reflexivity); right).
Qed.

(** X15. When the creation fails with an exception other than "already
    exists", [apply] raises it at once: no update is tried and nothing is
    waited for. *)
Theorem apply_create_error_propagates (region stack_name cf_template : string)
  (parameters : list StackParameter) (w w1 : W) (e : exn) :
  let c := boto3_client "cloudformation" region in
  cfn_create_stack aws c stack_name cf_template parameters w
  = (Raised e, w1) ->
  e <> AlreadyExistsException ->
  apply aws region stack_name cf_template parameters w
  = (Raised e, w1,
     [Print ("Applying the cloudformation template ..." ++ String "010" "");
      CreateStack c stack_name cf_template parameters]).
Proof.
  cbv zeta. intros Hc Hne. unfold_run. rewrite Hc; cbv beta iota.
  destruct e; try reflexivity. now elim Hne.
Qed.

(** X16. When the stack exists and the update is refused, [apply] raises
    the exception of the update, whatever it is, and waits for nothing. *)
Theorem apply_update_error_propagates (region stack_name cf_template : string)
  (parameters : list StackParameter) (w w0 w1 : W) (e : exn) :
  let c := boto3_client "cloudformation" region in
  cfn_create_stack aws c stack_name cf_template parameters w
  = (Raised AlreadyExistsException, w0) ->
  cfn_update_stack aws c stack_name cf_template parameters w0
  = (Raised e, w1) ->
  apply aws region stack_name cf_template parameters w
  = (Raised e, w1,
     [Print ("Applying the cloudformation template ..." ++ String "010" "");
      CreateStack c stack_name cf_template parameters;
      UpdateStack c stack_name cf_template parameters]).
Proof.
  cbv zeta. intros Hc Hu. unfold_run. rewrite Hc; cbv beta iota.
  rewrite Hu; cbv beta iota. reflexivity.
Qed.

(** X17. When the description of the stack comes back empty, [apply]
    fails with [IndexError] before it waits: the stack was created, but
    its creation is not waited for and its address is not looked up. *)
Theorem apply_empty_stack_description (region stack_name cf_template : string)
  (parameters : list StackParameter) (w w1 w2 : W) :
  let c := boto3_client "cloudformation" region in
  cfn_create_stack aws c stack_name cf_template parameters w = (Ok tt, w1) ->
  cfn_describe_stacks aws c stack_name w1 = (Ok [], w2) ->
  apply aws region stack_name cf_template parameters w
  = (Raised IndexError, w2,
     [Print ("Applying the cloudformation template ..." ++ String "010" "");
      CreateStack c stack_name cf_template parameters;
      DescribeStacks c stack_name]).
Proof.
  cbv zeta. intros Hc Hd. unfold_run. rewrite Hc; cbv beta iota.
  rewrite Hd; cbv beta iota. reflexivity.
Qed.

(** X18. When the wait fails, [apply] raises the exception of the wait:
    the load balancer is not looked up, and nothing is undone. *)
Theorem apply_wait_error_propagates (region stack_name cf_template : string)
  (parameters : list StackParameter) (w w1 w2 w3 : W) (stack : Stack)
  (stacks : list Stack) (e : exn) :
  let c := boto3_client "cloudformation" region in
  let wt := get_waiter c "stack_create_complete" in
  cfn_create_stack aws c stack_name cf_template parameters w = (Ok tt, w1) ->
  cfn_describe_stacks aws c stack_name w1 = (Ok (stack :: stacks), w2) ->
  cfn_wait aws wt stack_name [] w2 = (Raised e, w3) ->
  let run := apply aws region stack_name cf_template parameters w in
  result run = Raised e
  /\ world run = w3
  /\ remote_calls (effects run) = [KCreate; KDescribeStacks; KWait].
Proof.
  cbv zeta. intros Hc Hd Hw. unfold_run. rewrite Hc; cbv beta iota.
  rewrite Hd; cbv beta iota. rewrite Hw; cbv beta iota.
  repeat split.
Qed.

End Convergence.

(** ** The two verbs *)

Section Verbs.

Variable W : Type.
Variable aws : services W.
Variable str : pyval -> string.
Variable json_dumps : pyval -> string.

(** A successful run of [plan] ends with the write of what it returns and
    the last line it prints. *)
Lemma plan_ok_shape (region stack_name : string)
  (versions : list VersionSpec) (w : W) (body : string) :
  result (plan aws str json_dumps region stack_name versions w) = Ok body ->
  exists before line,
    effects (plan aws str json_dumps region stack_name versions w)
    = (before ++ [WriteFile "cf_template.json" body; Print line])%list.
Proof.
  destruct (discover_all aws str region versions w)
    as [[[found|e] w1] l] eqn:E.
  - pose proof (plan_run W aws str json_dumps region stack_name versions
                  w found w1 l E) as Hrun.
    cbv zeta in Hrun. rewrite Hrun.
    destruct (fs_write aws "cf_template.json" _ w1) as [[[]|e] w2];
      unfold result, effects; simpl; intros H; [|discriminate H].
    injection H as <-. eexists (_ :: l), _. reflexivity.
  - rewrite (plan_run_raised W aws str json_dumps region stack_name versions
               w e w1 l E).
    unfold result; simpl. discriminate.
Qed.

(** The only remote calls of [plan] are discovery calls. *)
Lemma plan_effect_kinds (region stack_name : string)
  (versions : list VersionSpec) (w : W) (ev : event) :
  In ev (effects (plan aws str json_dumps region stack_name versions w)) ->
  kind_of ev = None \/ kind_of ev = Some KDiscover.
Proof.
  pose proof (discover_all_effects W aws str region versions w) as Hd.
  assert (Hl : forall ev,
             In ev (effects (discover_all aws str region versions w)) ->
             kind_of ev = None \/ kind_of ev = Some KDiscover).
  { intros ev' Hin. destruct (Hd ev' Hin) as [[line ->]|(v & _ & ->)];
      [now left | now right]. }
  clear Hd.
  destruct (discover_all aws str region versions w)
    as [[[found|e] w1] l] eqn:E; unfold effects in Hl; simpl in Hl.
  - pose proof (plan_run W aws str json_dumps region stack_name versions
                  w found w1 l E) as Hrun.
    cbv zeta in Hrun. rewrite Hrun.
    destruct (fs_write aws "cf_template.json" _ w1) as [[[]|e] w2];
      unfold effects; simpl; rewrite in_app_iff; simpl;
      intros [<-|[Hin|Hin]]; auto;
      repeat (destruct Hin as [<-|Hin]; auto); contradiction.
  - rewrite (plan_run_raised W aws str json_dumps region stack_name versions
               w e w1 l E).
    unfold effects; simpl. intros [<-|Hin]; auto.
Qed.

(** X19. With the verb [apply], the template that is submitted is the
    one [plan] returned and wrote: the creation call that follows the
    write of [cf_template.json] carries the content of the file, and so
    does an update; the run ends as [apply] ends on that template. *)
Theorem apply_verb_submits_written_template (region stack_name : string)
  (versions : list VersionSpec) (parameters : list StackParameter) (w : W)
  (body : string) :
  let planned := plan aws str json_dumps region stack_name versions w in
  let run :=
    run_verb aws str json_dumps "apply" region stack_name versions
      parameters w in
  let c := boto3_client "cloudformation" region in
  result planned = Ok body ->
  (exists before line1 line2 rest,
      effects run
      = (before ++
           [WriteFile "cf_template.json" body; Print line1; Print line2;
            CreateStack c stack_name body parameters] ++ rest)%list)
  /\ (forall c' n b p,
         In (UpdateStack c' n b p) (effects run) ->
         c' = c /\ n = stack_name /\ b = body /\ p = parameters)
  /\ result run
     = result (apply aws region stack_name body parameters (world planned))
  /\ world run
     = world (apply aws region stack_name body parameters (world planned)).
Proof.
  cbv zeta. intros Hok.
  destruct (plan_ok_shape region stack_name versions w body Hok)
    as (before & line & Hshape).
  pose proof (plan_effect_kinds region stack_name versions w) as Hkinds.
  change (run_verb aws str json_dumps "apply" region stack_name versions
            parameters)
    with (bind (plan aws str json_dumps region stack_name versions)
            (fun template =>
               apply aws region stack_name template parameters)).
  unfold bind.
  destruct (plan aws str json_dumps region stack_name versions w)
    as [[r w1] l1].
  unfold result, effects, world in *; cbn [fst snd] in *.
  subst r.
  assert (Hno : forall c' n b p, ~ In (UpdateStack c' n b p) l1)
    by (intros c' n b p Hin; destruct (Hkinds _ Hin) as [H|H];
        discriminate H).
  clear Hkinds.
  assert (Hfirst :
           exists line2 rest,
             snd (apply aws region stack_name body parameters w1)
             = Print line2
                 :: CreateStack (boto3_client "cloudformation" region)
                      stack_name body parameters :: rest).
  { unfold_run. split_run. all: cbn [fst snd app].
    all: do 2 eexists; reflexivity. }
  assert (Hupd :
           forall c' n b p,
             In (UpdateStack c' n b p)
                (snd (apply aws region stack_name body parameters w1)) ->
             c' = boto3_client "cloudformation" region
             /\ n = stack_name /\ b = body /\ p = parameters).
  { unfold_run. split_run. all: cbn [fst snd app].
    all: intros c' n b p Hin; cbn [In] in Hin.
    all: repeat (destruct Hin as [Hin|Hin]; try discriminate Hin).
    all: try contradiction.
    all: injection Hin as <- <- <- <-; now repeat split. }
  destruct (apply aws region stack_name body parameters w1)
    as [[r2 w2] l2].
  cbn [fst snd] in *.
  destruct Hfirst as (line2 & rest & ->).
  split; [|split; [|split; reflexivity]].
  - exists before, line, line2, rest.
    rewrite Hshape, <- app_assoc. reflexivity.
  - intros c' n b p Hin. apply in_app_iff in Hin as [Hin|Hin].
    + now apply Hno in Hin.
    + now apply Hupd.
Qed.

(** X20. With the verb [apply], when [plan] fails nothing is submitted:
    the run ends with the exception of [plan], and its only remote calls
    are the discovery calls [plan] made. *)
Theorem apply_verb_stops_when_plan_fails (region stack_name : string)
  (versions : list VersionSpec) (parameters : list StackParameter) (w : W)
  (e : exn) :
  let planned := plan aws str json_dumps region stack_name versions w in
  let run :=
    run_verb aws str json_dumps "apply" region stack_name versions
      parameters w in
  result planned = Raised e ->
  result run = Raised e
  /\ world run = world planned
  /\ effects run = effects planned
  /\ forall ev,
      In ev (effects run) ->
      kind_of ev = None \/ kind_of ev = Some KDiscover.
Proof.
  cbv zeta. intros Hraised.
  pose proof (plan_effect_kinds region stack_name versions w) as Hkinds.
  change (run_verb aws str json_dumps "apply" region stack_name versions
            parameters)
    with (bind (plan aws str json_dumps region stack_name versions)
            (fun template =>
               apply aws region stack_name template parameters)).
  unfold bind.
  destruct (plan aws str json_dumps region stack_name versions w)
    as [[r w1] l1].
  unfold result, world, effects in *; cbn [fst snd] in *. subst r.
  cbn [fst snd]. repeat split. exact Hkinds.
Qed.

(** X21. With the verb [delete] nothing is planned: whatever versions and
    parameters the configuration holds, the run is that of [delete], with
    no discovery call and no file written, and its remote calls are the
    deletion and, if the deletion is accepted, the wait. *)
Theorem delete_verb_skips_planning (region stack_name : string)
  (versions : list VersionSpec) (parameters : list StackParameter) (w : W) :
  let run :=
    run_verb aws str json_dumps "delete" region stack_name versions
      parameters w in
  run = delete aws region stack_name w
  /\ (remote_calls (effects run) = [KDelete]
      \/ remote_calls (effects run) = [KDelete; KWait])
  /\ (fst (cfn_delete_stack aws (boto3_client "cloudformation" region)
             stack_name w)
      = Ok tt ->
      remote_calls (effects run) = [KDelete; KWait])
  /\ forall file_name content,
      ~ In (WriteFile file_name content) (effects run).
Proof.
  cbv zeta.
  change (run_verb aws str json_dumps "delete" region stack_name versions
            parameters w)
    with (delete aws region stack_name w).
  split; [reflexivity|].
  unfold_run. split_run.
  all: cbn [fst snd app remote_calls flat_map kind_of].
  all: split; [first [left; reflexivity | right; reflexivity]|].
  all: split; [intros H; first [discriminate H | reflexivity]|].
  all: intros f c Hin; cbn [In] in Hin.
  all: repeat (destruct Hin as [Hin|Hin]; try discriminate Hin).
  all: exact Hin.
Qed.

End Verbs.

(** ** The configuration *)

Lemma collect_versions_dicts (ds : list dict) :
  forall acc,
    collect_versions (map PDict ds) acc
    = inr (acc ++ map (map snd) ds)%list.
Proof.
  induction ds as [|d ds IH]; intros acc; simpl.
  - now rewrite app_nil_r.
  - now rewrite IH, <- app_assoc.
Qed.

Lemma collect_versions_not_dict (ds : list dict) (x : pyval)
  (rest : list pyval) :
  (forall d, x <> PDict d) ->
  forall acc,
    collect_versions (map PDict ds ++ x :: rest) acc = inl AttributeError.
Proof.
  intros Hx. induction ds as [|d ds IH]; intros acc; simpl.
  - destruct x as [| | | |d]; try reflexivity. now elim (Hx d).
  - apply IH.
Qed.

(** X22. From a configuration that has the six keys and whose versions
    are a list of mappings, [parse_input] returns the region and the stack
    name as they are, for each version the values of its mapping in the
    order the mapping has them, and the three CloudFormation parameters
    [SecurityGroups], [Subnets] and [VPCID] with the values of
    [security_groups], [subnets] and [vpc_id]. *)
Theorem parse_input_reads_configuration (d : dict)
  (stack_name region security_groups subnets vpc_id : pyval)
  (entries : list dict) :
  dict_get d "stack_name" = Some stack_name ->
  dict_get d "region" = Some region ->
  dict_get d "versions" = Some (PList (map PDict entries)) ->
  dict_get d "security_groups" = Some security_groups ->
  dict_get d "subnets" = Some subnets ->
  dict_get d "vpc_id" = Some vpc_id ->
  parse_input (PDict d)
  = ([Print "Parsing the config yaml ...";
      Print ("Finished parsing the config yaml." ++ String "010" "")],
     inr (region, stack_name, map (map snd) entries,
          [PDict [("ParameterKey", PStr "SecurityGroups");
                  ("ParameterValue", security_groups)];
           PDict [("ParameterKey", PStr "Subnets");
                  ("ParameterValue", subnets)];
           PDict [("ParameterKey", PStr "VPCID");
                  ("ParameterValue", vpc_id)]])).
Proof.
  intros H1 H2 H3 H4 H5 H6.
  unfold parse_input, subscript.
  rewrite H1, H2, H3, H4, H5, H6. cbn [and_then py_iter].
  rewrite collect_versions_dicts. reflexivity.
Qed.

(** X23. A configuration that lacks one of the six keys is rejected with
    [KeyError] for the first key that is missing, in the order
    [stack_name], [region], [versions], [security_groups], [subnets],
    [vpc_id] (the versions, when they are read first, being a list of
    mappings); the closing line is not printed. *)
Theorem parse_input_missing_key (d : dict) (before : list string)
  (k : string) (after : list string) :
  required_keys = (before ++ k :: after)%list ->
  (forall k', In k' before -> dict_get d k' <> None) ->
  dict_get d k = None ->
  (In "versions" before ->
   exists entries, dict_get d "versions" = Some (PList (map PDict entries))) ->
  parse_input (PDict d)
  = ([Print "Parsing the config yaml ..."], inl (KeyError k)).
Proof.
  intros Hsplit Hpresent Hmissing Hversions. unfold required_keys in Hsplit.
  repeat
    (destruct before as [|? before]; simpl in Hsplit;
     [injection Hsplit as <- <-
     |injection Hsplit as <- Hsplit]);
    try (destruct before; discriminate Hsplit).
  all: unfold parse_input, subscript.
  all: try (destruct Hversions as [entries Hv]; [simpl; tauto|]).
  all: rewrite Hmissing.
  all: repeat
         match goal with
         | Hv : dict_get _ "versions" = Some _ |- _ =>
             rewrite Hv; clear Hv
         | |- context [dict_get ?dd ?key] =>
             let E := fresh "E" in
             destruct (dict_get dd key) eqn:E;
             [|exfalso; apply (Hpresent key); [simpl; tauto | exact E]]
         end.
  all: cbn [and_then py_iter].
  all: rewrite ?collect_versions_dicts.
  all: reflexivity.
Qed.

(** X24. The key names inside a version are never read.  Two
    configurations that differ only in their versions, these being lists
    of mappings with the same values in the same order, parse to the same
    result: which value is the label, the weight or the clusters is
    decided by its place in the mapping. *)
Theorem parse_input_ignores_version_keys (d : dict)
  (entries entries' : list dict) :
  map (map snd) entries = map (map snd) entries' ->
  parse_input (PDict (dict_set d "versions" (PList (map PDict entries))))
  = parse_input (PDict (dict_set d "versions" (PList (map PDict entries')))).
Proof.
  intros Hvalues. unfold parse_input, subscript.
  rewrite !dict_get_set_same.
  rewrite !(dict_get_set_other d "versions") by discriminate.
  cbn [py_iter and_then]. rewrite !collect_versions_dicts, Hvalues.
  reflexivity.
Qed.

(** X25. A configuration that is not a mapping (an empty file loads as
    [None]) is rejected with [TypeError], at the first lookup. *)
Theorem parse_input_rejects_non_mapping (inputs : pyval) :
  (forall d, inputs <> PDict d) ->
  parse_input inputs = ([Print "Parsing the config yaml ..."], inl TypeError).
Proof.
  intros Hnot. destruct inputs as [| | | |d]; try reflexivity.
  now elim (Hnot d).
Qed.

(** X26. A version that is not a mapping makes [parse_input] fail with
    [AttributeError], whatever follows it and whether or not the keys
    read later are there. *)
Theorem parse_input_rejects_version_not_mapping (d : dict)
  (stack_name region listed : pyval) (entries : list dict) (x : pyval)
  (rest : list pyval) :
  dict_get d "stack_name" = Some stack_name ->
  dict_get d "region" = Some region ->
  dict_get d "versions" = Some listed ->
  py_iter listed = inr (map PDict entries ++ x :: rest)%list ->
  (forall e, x <> PDict e) ->
  parse_input (PDict d)
  = ([Print "Parsing the config yaml ..."], inl AttributeError).
Proof.
  intros H1 H2 H3 Hiter Hx. unfold parse_input, subscript.
  rewrite H1, H2, H3. cbn [and_then]. rewrite Hiter. cbn [and_then].
  rewrite (collect_versions_not_dict entries x rest Hx). reflexivity.
Qed.

(** X27. The parameters [parse_input] returns are the ones the template
    of [plan] declares: same keys, in the same order. *)
Theorem parameters_match_template (W : Type) (aws : services W)
  (str json_dumps : pyval -> string) (inputs region_v stack_name_v : pyval)
  (listed : list (list pyval)) (parameters : list pyval)
  (region stack_name : string) (versions : list VersionSpec) (w : W)
  (found : list (list string)) (w1 : W) (l : list event) :
  snd (parse_input inputs)
  = inr (region_v, stack_name_v, listed, parameters) ->
  discover_all aws str region versions w = (Ok found, w1, l) ->
  (forall content,
      fst (fs_write aws "cf_template.json" content w1) = Ok tt) ->
  exists (t : pyval) (declared : dict),
    result (plan aws str json_dumps region stack_name versions w)
    = Ok (json_dumps t)
    /\ item t "Parameters" = Some (PDict declared)
    /\ map (fun p => item p "ParameterKey") parameters
       = map (fun kv => Some (PStr (fst kv))) declared.
Proof.
  intros Hparse Hd Hw.
  destruct (plan_succeeds W aws str json_dumps region stack_name versions
              w found w1 l Hd Hw) as [Hres _].
  exists (cf_template stack_name versions found).
  eexists. split; [exact Hres|]. split; [reflexivity|].
  unfold parse_input in Hparse.
  repeat
    match type of Hparse with
    | context [and_then ?r _] =>
        let E := fresh "E" in
        destruct r eqn:E; cbn [and_then] in Hparse
    end;
    cbn [snd] in Hparse; try discriminate Hparse.
  injection Hparse as _ _ _ <-. reflexivity.
Qed.

(** ** The extras in the small worlds *)

Lemma find_instances_lists_every_instance_witness :
  result (find_instances Demo.aws Demo.shown "us-west-2" ["c1"; "c2"] [])
  = Ok ["i-aaa"; "i-bbb"; "i-ccc"].
Proof.
  pose proof (find_instances_lists_every_instance Demo.world Demo.aws
                Demo.shown "us-west-2" ["c1"; "c2"] []
                [ {| Instances := Demo.running "c1" |};
                  {| Instances := Demo.running "c2" |} ] [] eq_refl) as H.
  cbv zeta in H. destruct H as (H & _). exact H.
Defined.

Lemma find_instances_propagates_error_witness :
  result (find_instances (Faulty.aws "ec2") Demo.shown "us-west-2" ["c2"] [])
  = Raised (ClientError "UnauthorizedOperation").
Proof.
  rewrite (find_instances_propagates_error Demo.world (Faulty.aws "ec2")
             Demo.shown "us-west-2" ["c2"] []
             (ClientError "UnauthorizedOperation") [] eq_refl).
  reflexivity.
Defined.

Lemma plan_effects_confined_witness :
  (exists line,
      discovery_request "us-west-2" ["c1"] = Print line)
  \/ (exists v,
         In v [Demo.v1; Demo.v2]
         /\ discovery_request "us-west-2" ["c1"]
            = discovery_request "us-west-2" (clusters v))
  \/ (exists content,
         discovery_request "us-west-2" ["c1"]
         = WriteFile "cf_template.json" content).
Proof.
  apply (plan_effects_confined Demo.world Demo.aws Demo.shown Demo.shown
           "us-west-2" "prod" [Demo.v1; Demo.v2] []).
  vm_compute. right; right; left. reflexivity.
Defined.

Lemma plan_stops_at_failed_discovery_witness :
  result
    (plan (Faulty.aws "ec2") Demo.shown Demo.shown "us-west-2" "prod"
       [Demo.v1; Demo.v2; Demo.v3] [])
  = Raised (ClientError "UnauthorizedOperation")
  /\ forall file_name content,
      ~ In (WriteFile file_name content)
          (effects
             (plan (Faulty.aws "ec2") Demo.shown Demo.shown "us-west-2"
                "prod" [Demo.v1; Demo.v2; Demo.v3] [])).
Proof.
  pose proof (plan_stops_at_failed_discovery Demo.world (Faulty.aws "ec2")
                Demo.shown Demo.shown "us-west-2" "prod"
                [Demo.v1; Demo.v2; Demo.v3] []
                (ClientError "UnauthorizedOperation") []
                (effects
                   (discover_all (Faulty.aws "ec2") Demo.shown "us-west-2"
                      [Demo.v1; Demo.v2; Demo.v3] []))
                eq_refl) as H.
  cbv zeta in H. destruct H as (H1 & _ & H2 & _). split; assumption.
Defined.

Lemma plan_write_error_propagates_witness :
  result
    (plan (Faulty.aws "write") Demo.shown Demo.shown "us-west-2" "prod"
       [Demo.v1; Demo.v2] [])
  = Raised (OSError "Permission denied").
Proof.
  pose proof (plan_write_error_propagates Demo.world (Faulty.aws "write")
                Demo.shown Demo.shown "us-west-2" "prod" [Demo.v1; Demo.v2]
                [] [["i-aaa"; "i-bbb"]; ["i-ccc"]] []
                (effects
                   (discover_all (Faulty.aws "write") Demo.shown "us-west-2"
                      [Demo.v1; Demo.v2] []))
                (OSError "Permission denied") eq_refl
                (fun _ => eq_refl)) as H.
  cbv zeta in H. destruct H as (H & _). exact H.
Defined.

Lemma plan_returns_written_file_witness :
  In (WriteFile "cf_template.json" "<value>")
     (effects
        (plan Demo.aws Demo.shown Demo.shown "us-west-2" "prod"
           [Demo.v1; Demo.v2] [])).
Proof.
  pose proof (plan_returns_written_file Demo.world Demo.aws Demo.shown
                Demo.shown "us-west-2" "prod" [Demo.v1; Demo.v2] []
                "<value>") as H.
  cbv zeta in H. destruct (H eq_refl) as (Hin & _). exact Hin.
Defined.

Lemma plan_references_resolve_witness :
  exists t resources lsn entries,
    result
      (plan Demo.aws Demo.shown Demo.shown "us-west-2" "prod"
         [Demo.v1; Demo.v1'] [])
    = Ok (Demo.shown t)
    /\ item t "Resources" = Some (PDict resources)
    /\ dict_get resources "ALBListenerprod" = Some lsn
    /\ forwarding_entries lsn = Some entries
    /\ length entries = 2%nat.
Proof.
  destruct
    (plan_references_resolve Demo.world Demo.aws Demo.shown Demo.shown
       "us-west-2" "prod" [Demo.v1; Demo.v1'] []
       [["i-aaa"; "i-bbb"]; ["i-ccc"]] []
       (effects (discover_all Demo.aws Demo.shown "us-west-2"
                   [Demo.v1; Demo.v1'] []))
       eq_refl (fun _ => eq_refl))
    as (t & resources & lsn & alb & entries & H1 & H2 & H3 & H4 & H5 & _).
  exists t, resources, lsn, entries. auto.
Defined.

Lemma plan_pools_all_referenced_witness :
  exists t resources,
    result
      (plan Demo.aws Demo.shown Demo.shown "us-west-2" "prod"
         [Demo.v1; Demo.v2] [])
    = Ok (Demo.shown t)
    /\ item t "Resources" = Some (PDict resources)
    /\ In "TGv2prod" (map fst resources).
Proof.
  destruct
    (plan_pools_all_referenced Demo.world Demo.aws Demo.shown Demo.shown
       "us-west-2" "prod" [Demo.v1; Demo.v2] []
       [["i-aaa"; "i-bbb"]; ["i-ccc"]] []
       (effects (discover_all Demo.aws Demo.shown "us-west-2"
                   [Demo.v1; Demo.v2] []))
       eq_refl (fun _ => eq_refl))
    as (t & resources & lsn & entries & H1 & H2 & _ & _ & Hkeys & _).
  exists t, resources. split; [exact H1|]. split; [exact H2|].
  apply Hkeys. right; right. exists Demo.v2.
  split; [right; now left | reflexivity].
Defined.

Lemma plan_empty_versions_witness :
  exists t,
    result (plan Demo.aws Demo.shown Demo.shown "us-west-2" "prod" [] [])
    = Ok (Demo.shown t)
    /\ remote_calls
         (effects
            (plan Demo.aws Demo.shown Demo.shown "us-west-2" "prod" [] []))
       = [].
Proof.
  destruct
    (plan_empty_versions Demo.world Demo.aws Demo.shown Demo.shown
       "us-west-2" "prod" [] (fun _ => eq_refl))
    as (t & alb & lsn & H1 & H2 & _).
  exists t. auto.
Defined.

Lemma template_names_distinct_witness :
  "v1" = "v1" /\ tg_key "prod" "v1" <> alb_key "prod".
Proof.
  destruct (template_names_distinct "prod") as (Hinj & _ & Hnot & _).
  split; [apply Hinj; reflexivity | apply (Hnot "v1")].
Defined.

Lemma apply_call_order_witness :
  exists rest,
    [KCreate; KUpdate; KDescribeStacks; KWait; KDescribeResource;
     KDescribeLoadBalancers]
    = (remote_calls
         (effects
            (apply (Faulty.aws "wait") "eu-west-1" "prod" "{}"
               Demo.parameters ["prod"]))
         ++ rest)%list.
Proof.
  pose proof (apply_call_order Demo.world (Faulty.aws "wait") "eu-west-1"
                "prod" "{}" Demo.parameters ["prod"]) as H.
  cbv zeta in H. destruct H as (rest & [H|H] & _).
  - discriminate H.
  - exists rest. exact H.
Defined.

Lemma apply_converges_on_create_path_witness :
  result (apply Demo.aws "eu-west-1" "prod" "{}" Demo.parameters [])
  = Ok PNone.
Proof.
  pose proof (apply_converges_on_create_path Demo.world Demo.aws "eu-west-1"
                "prod" "{}" Demo.parameters [] ["prod"] ["prod"] ["prod"]
                ["prod"] ["prod"]
                {| StackId := "arn:aws:cloudformation:stack/prod" |} []
                {| PhysicalResourceId :=
                     "arn:aws:elasticloadbalancing:loadbalancer/app/ALBprod" |}
                {| DNSName := "prod-alb.elb.amazonaws.com" |} []) as H.
  cbv zeta in H.
  rewrite (H eq_refl eq_refl eq_refl eq_refl eq_refl). reflexivity.
Defined.

Lemma apply_converges_on_update_path_witness :
  result (apply Demo.aws "eu-west-1" "prod" "{}" Demo.parameters ["prod"])
  = Ok PNone.
Proof.
  pose proof (apply_converges_on_update_path Demo.world Demo.aws "eu-west-1"
                "prod" "{}" Demo.parameters ["prod"] ["prod"] ["prod"]
                ["prod"] ["prod"] ["prod"] ["prod"]
                {| StackId := "arn:aws:cloudformation:stack/prod" |} []
                {| PhysicalResourceId :=
                     "arn:aws:elasticloadbalancing:loadbalancer/app/ALBprod" |}
                {| DNSName := "prod-alb.elb.amazonaws.com" |} []) as H.
  cbv zeta in H.
  destruct (H eq_refl eq_refl eq_refl eq_refl eq_refl eq_refl) as (Hok & _).
  exact Hok.
Defined.

Lemma apply_create_error_propagates_witness :
  result
    (apply (Faulty.aws "create") "eu-west-1" "prod" "{}" Demo.parameters [])
  = Raised (ClientError "ValidationError").
Proof.
  pose proof (apply_create_error_propagates Demo.world (Faulty.aws "create")
                "eu-west-1" "prod" "{}" Demo.parameters [] []
                (ClientError "ValidationError")) as H.
  cbv zeta in H. rewrite (H eq_refl); [reflexivity | discriminate].
Defined.

Lemma apply_update_error_propagates_witness :
  result
    (apply (Faulty.aws "update") "eu-west-1" "prod" "{}" Demo.parameters
       ["prod"])
  = Raised (ClientError "No updates are to be performed.").
Proof.
  pose proof (apply_update_error_propagates Demo.world (Faulty.aws "update")
                "eu-west-1" "prod" "{}" Demo.parameters ["prod"] ["prod"]
                ["prod"]
                (ClientError "No updates are to be performed.")) as H.
  cbv zeta in H. rewrite (H eq_refl eq_refl). reflexivity.
Defined.

Lemma apply_empty_stack_description_witness :
  result
    (apply (Faulty.aws "stacks") "eu-west-1" "prod" "{}" Demo.parameters [])
  = Raised IndexError.
Proof.
  pose proof (apply_empty_stack_description Demo.world (Faulty.aws "stacks")
                "eu-west-1" "prod" "{}" Demo.parameters [] ["prod"]
                ["prod"]) as H.
  cbv zeta in H. rewrite (H eq_refl eq_refl). reflexivity.
Defined.

Lemma apply_wait_error_propagates_witness :
  result
    (apply (Faulty.aws "wait") "eu-west-1" "prod" "{}" Demo.parameters [])
  = Raised (WaiterError "Waiter encountered a terminal failure state")
  /\ remote_calls
       (effects
          (apply (Faulty.aws "wait") "eu-west-1" "prod" "{}"
             Demo.parameters []))
     = [KCreate; KDescribeStacks; KWait].
Proof.
  pose proof (apply_wait_error_propagates Demo.world (Faulty.aws "wait")
                "eu-west-1" "prod" "{}" Demo.parameters [] ["prod"] ["prod"]
                ["prod"]
                {| StackId := "arn:aws:cloudformation:stack/prod" |} []
                (WaiterError "Waiter encountered a terminal failure state"))
    as H.
  cbv zeta in H. destruct (H eq_refl eq_refl eq_refl) as (H1 & _ & H3).
  split; assumption.
Defined.

Lemma apply_verb_submits_written_template_witness :
  result
    (run_verb Demo.aws Demo.shown Demo.shown "apply" "us-west-2" "prod"
       [Demo.v1; Demo.v2] Demo.parameters [])
  = Ok PNone.
Proof.
  pose proof (apply_verb_submits_written_template Demo.world Demo.aws
                Demo.shown Demo.shown "us-west-2" "prod" [Demo.v1; Demo.v2]
                Demo.parameters [] "<value>") as H.
  cbv zeta in H. destruct (H eq_refl) as (_ & _ & Hres & _).
  rewrite Hres. reflexivity.
Defined.

Lemma apply_verb_stops_when_plan_fails_witness :
  result
    (run_verb (Faulty.aws "ec2") Demo.shown Demo.shown "apply" "us-west-2"
       "prod" [Demo.v1; Demo.v2] Demo.parameters [])
  = Raised (ClientError "UnauthorizedOperation").
Proof.
  pose proof (apply_verb_stops_when_plan_fails Demo.world (Faulty.aws "ec2")
                Demo.shown Demo.shown "us-west-2" "prod" [Demo.v1; Demo.v2]
                Demo.parameters []
                (ClientError "UnauthorizedOperation")) as H.
  cbv zeta in H. destruct (H eq_refl) as (Hres & _). exact Hres.
Defined.

Lemma delete_verb_skips_planning_witness :
  remote_calls
    (effects
       (run_verb Demo.aws Demo.shown Demo.shown "delete" "us-west-2" "prod"
          [Demo.v1; Demo.v2] Demo.parameters ["prod"]))
  = [KDelete; KWait].
Proof.
  pose proof (delete_verb_skips_planning Demo.world Demo.aws Demo.shown
                Demo.shown "us-west-2" "prod" [Demo.v1; Demo.v2]
                Demo.parameters ["prod"]) as H.
  cbv zeta in H. destruct H as (_ & _ & Hok & _). apply Hok. reflexivity.
Defined.

Lemma parse_input_reads_configuration_witness :
  snd (parse_input (PDict Sample.config))
  = inr (PStr "us-west-2", PStr "prod",
         [[PStr "v1"; PInt 90; PList [PStr "c1"]];
          [PStr "v2"; PInt 10; PList [PStr "c2"]]],
         [PDict [("ParameterKey", PStr "SecurityGroups");
                 ("ParameterValue", PStr "sg-1")];
          PDict [("ParameterKey", PStr "Subnets");
                 ("ParameterValue", PStr "subnet-1,subnet-2")];
          PDict [("ParameterKey", PStr "VPCID");
                 ("ParameterValue", PStr "vpc-1")]]).
Proof.
  rewrite (parse_input_reads_configuration Sample.config (PStr "prod")
             (PStr "us-west-2") (PStr "sg-1") (PStr "subnet-1,subnet-2")
             (PStr "vpc-1")
             [Sample.entry "v1" 90 "c1"; Sample.entry "v2" 10 "c2"]
             eq_refl eq_refl eq_refl eq_refl eq_refl eq_refl).
  reflexivity.
Defined.

Lemma parse_input_missing_key_witness :
  snd (parse_input (PDict Sample.no_subnets)) = inl (KeyError "subnets").
Proof.
  rewrite (parse_input_missing_key Sample.no_subnets
             ["stack_name"; "region"; "versions"; "security_groups"]
             "subnets" ["vpc_id"] eq_refl).
  - reflexivity.
  - intros k' [<-|[<-|[<-|[<-|[]]]]]; discriminate.
  - reflexivity.
  - intros _. exists [Sample.entry "v1" 90 "c1"]. reflexivity.
Defined.

Lemma parse_input_ignores_version_keys_witness :
  parse_input
    (PDict (dict_set Sample.config "versions"
              (PList (map PDict [Sample.entry "v1" 90 "c1"]))))
  = parse_input
      (PDict (dict_set Sample.config "versions"
                (PList (map PDict [Sample.renamed "v1" 90 "c1"])))).
Proof.
  apply (parse_input_ignores_version_keys Sample.config
           [Sample.entry "v1" 90 "c1"] [Sample.renamed "v1" 90 "c1"]).
  reflexivity.
Defined.

Lemma parse_input_rejects_non_mapping_witness :
  snd (parse_input PNone) = inl TypeError.
Proof.
  rewrite (parse_input_rejects_non_mapping PNone); [reflexivity|].
  intros d. discriminate.
Defined.

Lemma parse_input_rejects_version_not_mapping_witness :
  snd
    (parse_input
       (PDict
          [("stack_name", PStr "prod"); ("region", PStr "us-west-2");
           ("versions", PDict (Sample.entry "v1" 90 "c1"))]))
  = inl AttributeError.
Proof.
  rewrite (parse_input_rejects_version_not_mapping
             [("stack_name", PStr "prod"); ("region", PStr "us-west-2");
              ("versions", PDict (Sample.entry "v1" 90 "c1"))]
             (PStr "prod") (PStr "us-west-2")
             (PDict (Sample.entry "v1" 90 "c1")) [] (PStr "version")
             [PStr "weight"; PStr "cluster_ids"]
             eq_refl eq_refl eq_refl eq_refl).
  - reflexivity.
  - intros e. discriminate.
Defined.

Lemma parameters_match_template_witness :
  exists t declared,
    result
      (plan Demo.aws Demo.shown Demo.shown "us-west-2" "prod"
         [Demo.v1; Demo.v2] [])
    = Ok (Demo.shown t)
    /\ item t "Parameters" = Some (PDict declared)
    /\ map fst declared = ["SecurityGroups"; "Subnets"; "VPCID"].
Proof.
  destruct
    (parameters_match_template Demo.world Demo.aws Demo.shown Demo.shown
       (PDict Sample.config) (PStr "us-west-2") (PStr "prod")
       [[PStr "v1"; PInt 90; PList [PStr "c1"]];
        [PStr "v2"; PInt 10; PList [PStr "c2"]]]
       [PDict [("ParameterKey", PStr "SecurityGroups");
               ("ParameterValue", PStr "sg-1")];
        PDict [("ParameterKey", PStr "Subnets");
               ("ParameterValue", PStr "subnet-1,subnet-2")];
        PDict [("ParameterKey", PStr "VPCID");
               ("ParameterValue", PStr "vpc-1")]]
       "us-west-2" "prod" [Demo.v1; Demo.v2] []
       [["i-aaa"; "i-bbb"]; ["i-ccc"]] []
       (effects (discover_all Demo.aws Demo.shown "us-west-2"
                   [Demo.v1; Demo.v2] []))
       eq_refl eq_refl (fun _ => eq_refl))
    as (t & declared & H1 & H2 & H3).
  exists t, declared. split; [exact H1|]. split; [exact H2|].
  simpl in H3.
  destruct declared as [|[k1 ?] [|[k2 ?] [|[k3 ?] [|? ?]]]];
    try discriminate H3.
  simpl in H3. injection H3 as <- <- <-. reflexivity.
Defined.
